(** * opensearch-benchmark: the tuning sweep and the bulk response aggregator

    A shallow embedding of [osbenchmark/tuning/optimal_finder.py] and of the
    bulk response aggregator exercised by [tests/driver/runner_test.py],
    together with the properties stated about them.

    Python integers are [Z]; Python floats that are only compared or
    truncated (error rates, clock readings) are rationals [Q]; a Python dict
    used as a map is a [gmap]; a dict whose insertion order is observable is
    an association list. *)

From Stdlib Require Import ZArith QArith List Lia Bool.
From stdpp Require Import base option list strings gmap pretty.
Import ListNotations.

Local Open Scope string_scope.
Local Open Scope list_scope.
Local Open Scope Z_scope.

(** ** Exceptions and outcomes *)

Inductive exn : Type :=
| KeyboardInterrupt
| UnicodeDecodeError
| AttributeError
| FileNotFoundError
| KeyError.

Inductive outcome (A : Type) : Type :=
| Returned (a : A)
| Raised (e : exn).
Arguments Returned {A} a.
Arguments Raised {A} e.

(** ** The Result collaborator *)

(** One CSV row as [csv.DictReader] yields it: column name to cell. *)
Abbreviation csv_row := (gmap string string).

(** The metrics mapping: metric name to its row. *)
Abbreviation metrics := (gmap string (gmap string string)).

(** Modelled from the spec: the Result class ([osbenchmark/tuning/result.py])
    is a record exposing the configuration fields, the success flag, the total
    time, the error rate and the metrics mapping. *)
Record Result : Type := mkResult {
  test_id : Z;
  batch_size : Z;
  bulk_size : Z;
  number_of_client : Z;
  success : bool;
  total_time : Z;
  error_rate : Q;
  output : option metrics
}.

(** ** The optimal selector *)

(** [sys.maxsize] of a 64-bit CPython. *)
Definition sys_maxsize : Z := 2 ^ 63 - 1.

(** [result.success and result.error_rate <= allowed_error_rate] *)
Definition passes (allowed_error_rate : Q) (result : Result) : bool :=
  success result && Qle_bool (error_rate result) allowed_error_rate.

(** The loop of [get_successful_results]: append each passing result. *)
Definition get_successful_results (results : list Result)
    (allowed_error_rate : Q) : list Result :=
  fold_left
    (fun successful_results result =>
       if passes allowed_error_rate result
       then successful_results ++ [result]
       else successful_results)
    results [].

(** One iteration of the loop of [find_optimal_result]; the state is the pair
    of the local variables [total_time] and [optimal]. *)
Definition find_optimal_step (st : Z * option Result) (result : Result)
    : Z * option Result :=
  if total_time result <? fst st
  then (total_time result, Some result)
  else st.

Definition find_optimal_loop (st : Z * option Result) (results : list Result)
    : Z * option Result :=
  fold_left find_optimal_step results st.

Definition find_optimal_result (results : list Result) : option Result :=
  snd (find_optimal_loop (sys_maxsize, None) results).

(** The selection as [batch_bulk_client_tuning] composes it. *)
Definition select_optimal (results : list Result) (allowed_error_rate : Q)
    : option Result :=
  find_optimal_result (get_successful_results results allowed_error_rate).

(** ** The world of one sweep point

    The executor talks to a file system, a clock, a console, a logger and one
    child process.  The world records their state and the calls made, in
    order; what the child process does is given from outside. *)

Inductive proc_state : Type :=
| NoProcess                       (* [proc] is still [None] *)
| Running
| Signalled                       (* [terminate()] was sent, nobody waited *)
| Reaped (returncode : Z).        (* the exit status was collected *)

Inductive event : Type :=
| EvPopen (commands : list string)
| EvCommunicate
| EvTerminate
| EvConsoleInfo (msg : string)
| EvLogError (msg : option string)
| EvRemove (path : string).

Record World : Type := mkWorld {
  files : gmap string (list (gmap string string));
  child : proc_state;
  now : Q;
  trace : list event
}.

(** What the child process does once spawned: how long it runs, what it does
    to the files, and how the wait for it ends. *)
Inductive child_run : Type :=
| SpawnInterrupted
| RunExits (duration : Q)
           (effect : gmap string (list (gmap string string)) ->
                     gmap string (list (gmap string string)))
           (returncode : Z) (stderr : list Byte.byte)
| RunInterrupted (duration : Q)
           (effect : gmap string (list (gmap string string)) ->
                     gmap string (list (gmap string string))).

Record Env : Type := mkEnv {
  temp_name : string;             (* the path [tempfile.mkstemp] hands out *)
  timestamp : string;             (* [str(datetime.now().timestamp())] *)
  uuid4 : string;                 (* [str(uuid.uuid4())] *)
  run : child_run
}.

Record Args : Type := mkArgs {
  target_hosts : string;
  client_options : option string;
  workload_path : string
}.

(** State and exception monad over the world. *)
Definition M (A : Type) : Type := World -> outcome A * World.

#[global] Instance M_ret : MRet M := fun A a w => (Returned a, w).

#[global] Instance M_bind : MBind M := fun A B f m w =>
  match m w with
  | (Returned a, w') => f a w'
  | (Raised e, w') => (Raised e, w')
  end.

Definition raise {A : Type} (e : exn) : M A := fun w => (Raised e, w).

Definition emit (ev : event) : M unit := fun w =>
  (Returned tt, mkWorld (files w) (child w) (now w) (trace w ++ [ev])).

(** [try: body / except KeyboardInterrupt as e: handler e] *)
Definition try_except_interrupt {A : Type} (body : M A) (handler : exn -> M A)
    : M A := fun w =>
  match body w with
  | (Raised KeyboardInterrupt, w') => handler KeyboardInterrupt w'
  | r => r
  end.

(** [try: body / finally: final], where [final] sees what [body] assigned:
    the value when it returned, nothing when it raised.  An exception of
    [final] replaces the pending one; otherwise the pending one goes on. *)
Definition try_finally {A B : Type} (body : M A) (final : option A -> M B)
    : M (A * B) := fun w =>
  match body w with
  | (Returned a, w1) =>
      match final (Some a) w1 with
      | (Returned b, w2) => (Returned (a, b), w2)
      | (Raised e, w2) => (Raised e, w2)
      end
  | (Raised e, w1) =>
      match final None w1 with
      | (Returned _, w2) => (Raised e, w2)
      | (Raised e', w2) => (Raised e', w2)
      end
  end.

(** *** Primitive operations *)

Definition timer : M Q := fun w => (Returned (now w), w).

Definition console_info (msg : string) : M unit := emit (EvConsoleInfo msg).

Definition logger_error (msg : option string) : M unit := emit (EvLogError msg).

(** [tempfile.mkstemp()] creates the file, empty. *)
Definition mkstemp (env : Env) : M string := fun w =>
  (Returned (temp_name env),
   mkWorld (<[temp_name env := []]> (files w)) (child w) (now w) (trace w)).

Definition os_path_exists (path : string) : M bool := fun w =>
  (Returned (bool_decide (is_Some (files w !! path))), w).

Definition os_remove (path : string) : M unit := fun w =>
  match files w !! path with
  | Some _ =>
      (Returned tt,
       mkWorld (delete path (files w)) (child w) (now w)
               (trace w ++ [EvRemove path]))
  | None => (Raised FileNotFoundError, w)
  end.

(** [open(filename)] and [csv.DictReader]: the rows of the file. *)
Definition read_csv (path : string) : M (list (gmap string string)) := fun w =>
  match files w !! path with
  | Some rows => (Returned rows, w)
  | None => (Raised FileNotFoundError, w)
  end.

(** [proc = None] *)
Definition clear_proc : M unit := fun w =>
  (Returned tt, mkWorld (files w) NoProcess (now w) (trace w)).

Definition Popen (r : child_run) (commands : list string) : M unit := fun w =>
  match r with
  | SpawnInterrupted => (Raised KeyboardInterrupt, w)
  | _ => (Returned tt,
          mkWorld (files w) Running (now w) (trace w ++ [EvPopen commands]))
  end.

(** [proc.communicate()] blocks until the child exits and collects its exit
    status, unless the interrupt arrives first. *)
Definition communicate (r : child_run) : M (Z * list Byte.byte) := fun w =>
  match r with
  | SpawnInterrupted => (Raised AttributeError, w)
  | RunExits d effect rc stderr =>
      (Returned (rc, stderr),
       mkWorld (effect (files w)) (Reaped rc) (now w + d)%Q
               (trace w ++ [EvCommunicate]))
  | RunInterrupted d effect =>
      (Raised KeyboardInterrupt,
       mkWorld (effect (files w)) (child w) (now w + d)%Q
               (trace w ++ [EvCommunicate]))
  end.

(** [proc.terminate()]; on [None] the attribute lookup fails. *)
Definition terminate : M unit := fun w =>
  match child w with
  | NoProcess => (Raised AttributeError, w)
  | Running =>
      (Returned tt,
       mkWorld (files w) Signalled (now w) (trace w ++ [EvTerminate]))
  | st =>
      (Returned tt, mkWorld (files w) st (now w) (trace w ++ [EvTerminate]))
  end.

(** Every byte is below 0x80. *)
Definition is_ascii (bs : list Byte.byte) : bool :=
  forallb (fun b => (Byte.to_N b <? 128)%N) bs.

(** [bytes.decode('ascii')] *)
Definition decode_ascii (bs : list Byte.byte) : M string :=
  if is_ascii bs
  then mret (String.string_of_list_ascii (map Ascii.ascii_of_byte bs))
  else raise UnicodeDecodeError.

(** [int(x)] of a float: truncation towards zero. *)
Definition int_of_float (x : Q) : Z := Z.quot (Qnum x) (Z.pos (Qden x)).

(** Truth value of an optional string: [None] and [""] are false. *)
Definition truthy (v : option string) : bool :=
  match v with
  | Some s => negb (String.eqb s "")
  | None => false
  end.

(** ** The benchmark subprocess runner and the single-point executor *)

Definition METRIC_KEY : string := "Metric".
Definition TOTAL_TIME_KEY : string := "Total time".

Definition generate_random_index_name (env : Env) : string :=
  timestamp env +:+ "_" +:+ uuid4 env.

Definition get_workload_params (env : Env) (batch_size bulk_size
    number_of_client : Z) : string :=
  String.concat ","
    [ "bulk_size:" +:+ pretty bulk_size;
      "batch_size:" +:+ pretty batch_size;
      "bulk_indexing_clients:" +:+ pretty number_of_client;
      "index_name:" +:+ generate_random_index_name env ].

(** The ordered dict of flags; every key is set once, so appending is
    assignment. *)
Definition get_benchmark_params (env : Env) (args : Args) (batch_size
    bulk_size number_of_client : Z) (temp_output_file : string)
    : list (string * option string) :=
  [ ("--target-hosts", Some (target_hosts args)) ]
  ++ (if truthy (client_options args)
      then [ ("--client-options", client_options args) ]
      else [])
  ++ [ ("--kill-running-processes", None);
       ("--pipeline", Some "benchmark-only");
       ("--telemetry", Some "node-stats");
       ("--telemetry-params",
        Some ("node-stats-include-indices:true," +:+
              "node-stats-sample-interval:10," +:+
              "node-stats-include-mem:true," +:+
              "node-stats-include-process:true"));
       ("--workload-path", Some (workload_path args));
       ("--workload-params",
        Some (get_workload_params env batch_size bulk_size number_of_client));
       ("--results-format", Some "csv");
       ("--results-file", Some temp_output_file) ].

(** The loop that flattens the flags into the command line. *)
Definition build_commands (params : list (string * option string))
    : list string :=
  fold_left
    (fun commands kv =>
       let commands := commands ++ [fst kv] in
       match snd kv with
       | Some v => if truthy (Some v) then commands ++ [v] else commands
       | None => commands
       end)
    params ["opensearch-benchmark"; "execute-test"].

Definition run_benchmark (r : child_run) (params : list (string * option string))
    : M (bool * string) :=
  let commands := build_commands params in
  clear_proc ;;
  try_except_interrupt
    (Popen r commands ;;
     out ← communicate r ;
     text ← decode_ascii (snd out) ;
     mret (fst out =? 0, text))
    (fun e =>
       terminate ;;
       console_info "Process is terminated!" ;;
       raise e).

(** The loop [for row in line_reader: output[row[METRIC_KEY]] = row]. *)
Fixpoint read_metrics (rows : list (gmap string string))
    (output : gmap string (gmap string string))
    : outcome (gmap string (gmap string string)) :=
  match rows with
  | [] => Returned output
  | row :: rest =>
      match row !! METRIC_KEY with
      | Some name => read_metrics rest (<[name := row]> output)
      | None => Raised KeyError
      end
  end.

(** The synthetic row injected under [TOTAL_TIME_KEY]. *)
Definition total_time_row (total_time : Z) : gmap string string :=
  <["Unit" := "s"]>
    (<["Value" := pretty total_time]>
       (<["Task" := ""]> (<[METRIC_KEY := TOTAL_TIME_KEY]> ∅))).

(** Lines 115 to 118: the mapping built from the rows of the report. *)
Definition build_output (rows : list (gmap string string)) (total_time : Z)
    : outcome (gmap string (gmap string string)) :=
  match read_metrics rows ∅ with
  | Returned output =>
      Returned (<[TOTAL_TIME_KEY := total_time_row total_time]> output)
  | Raised e => Raised e
  end.

Definition lift {A : Type} (o : outcome A) : M A := fun w => (o, w).

(** Lines 124 and 125: [if os.path.exists(filename): os.remove(filename)]. *)
Definition remove_if_exists (filename : string) : M unit :=
  present ← os_path_exists filename ;
  if present : bool then os_remove filename else mret tt.

Section SweepPoint.

(** Modelled from the spec: the Result collaborator derives the error rate
    from the metrics mapping handed to [set_output]; how is its own
    business. *)
Variable error_rate_of : option (gmap string (gmap string string)) -> Q.

(** Modelled from the spec: [Result(test_id, batch, bulk, client)]. *)
Definition new_Result (test_id batch bulk client : Z) : Result :=
  mkResult test_id batch bulk client false 0 (error_rate_of None) None.

(** Modelled from the spec: [set_output(success, total_time, output)]
    stores its three arguments. *)
Definition set_output (result : Result) (success : bool) (total_time : Z)
    (output : option (gmap string (gmap string string))) : Result :=
  mkResult (test_id result) (batch_size result) (bulk_size result)
           (number_of_client result) success total_time
           (error_rate_of output) output.

(** The [finally] block of [run_batch_bulk_client_tests]. *)
Definition record_run (result : Result) (filename : string) (start : Q)
    (ran : option (bool * string)) : M Result :=
  let success := match ran with Some p => fst p | None => false end in
  let err := match ran with Some p => Some (snd p) | None => None end in
  stop ← timer ;
  let total_time := int_of_float (stop - start)%Q in
  if success then
    rows ← read_csv filename ;
    output ← lift (build_output rows total_time) ;
    mret (set_output result true total_time (Some output))
  else
    logger_error err ;;
    mret (set_output result false total_time None).

Definition run_batch_bulk_client_tests (env : Env) (args : Args)
    (test_id batch bulk client : Z) : M Result :=
  let result := new_Result test_id batch bulk client in
  filename ← mkstemp env ;
  let params := get_benchmark_params env args batch bulk client filename in
  console_info ("Running benchmark with: bulk size: " +:+ pretty bulk +:+
                ", number of clients: " +:+ pretty client +:+
                ", batch size: " +:+ pretty batch) ;;
  start ← timer ;
  done ← try_finally (run_benchmark (run env) params)
                     (record_run result filename start) ;
  remove_if_exists filename ;;
  mret (snd done).

End SweepPoint.

Definition initial_world : World := mkWorld ∅ NoProcess 0%Q [].

(** ** The bulk response aggregator *)

Module Bulk.

(** A shard-outcome signature: (total, successful, failed). *)
Definition signature : Type := Z * Z * Z.

Definition signature_eqb (s t : signature) : bool :=
  (fst (fst s) =? fst (fst t)) && (snd (fst s) =? snd (fst t))
  && (snd s =? snd t).

(** One item of the response: its operation kind, status code, shard tuple
    and outcome label. *)
Record item : Type := mkItem {
  op_kind : string;
  status : Z;
  shards : signature;
  result_label : string
}.

Record response : Type := mkResponse {
  errors : bool;
  items : option (list item)
}.

Record BulkRequest : Type := mkBulkRequest {
  body : list string;
  action_metadata_present : bool;
  bulk_size : Z;
  index : option string;
  doc_type : option string;
  detailed_results : bool
}.

(** Per operation kind: the item count and the counts per outcome label,
    both in first-seen order. *)
Record op_stats : Type := mkOpStats {
  item_count : Z;
  by_label : list (string * Z)
}.

Record BulkOutcome : Type := mkBulkOutcome {
  weight : Z;
  unit_label : string;
  success : bool;
  error_count : Z;
  out_index : option string;
  ops : option (list (string * op_stats));
  shards_histogram : option (list (Z * signature))
}.

(** The success range of status codes is 2xx. *)
Definition is_failure (status : Z) : bool :=
  (status <? 200) || (299 <? status).

(** Match the tuple against the signatures seen so far, in first-seen
    order; increment that entry, or append a new one. *)
Fixpoint histogram_add (s : signature) (h : list (Z * signature))
    : list (Z * signature) :=
  match h with
  | [] => [(1, s)]
  | (n, t) :: rest =>
      if signature_eqb t s then (n + 1, t) :: rest
      else (n, t) :: histogram_add s rest
  end.

Fixpoint label_add (l : string) (c : list (string * Z)) : list (string * Z) :=
  match c with
  | [] => [(l, 1)]
  | (k, n) :: rest =>
      if String.eqb k l then (k, n + 1) :: rest
      else (k, n) :: label_add l rest
  end.

Fixpoint ops_add (kind l : string) (o : list (string * op_stats))
    : list (string * op_stats) :=
  match o with
  | [] => [(kind, mkOpStats 1 [(l, 1)])]
  | (k, st) :: rest =>
      if String.eqb k kind
      then (k, mkOpStats (item_count st + 1) (label_add l (by_label st)))
           :: rest
      else (k, st) :: ops_add kind l rest
  end.

(** The running state of the single pass over the items. *)
Record acc : Type := mkAcc {
  acc_errors : Z;
  acc_ops : list (string * op_stats);
  acc_hist : list (Z * signature)
}.

Definition step (detailed : bool) (a : acc) (it : item) : acc :=
  let n := if is_failure (status it) then acc_errors a + 1
           else acc_errors a in
  if detailed
  then mkAcc n (ops_add (op_kind it) (result_label it) (acc_ops a))
             (histogram_add (shards it) (acc_hist a))
  else mkAcc n (acc_ops a) (acc_hist a).

Definition scan (detailed : bool) (its : list item) : acc :=
  fold_left (step detailed) its (mkAcc 0 [] []).

(** Modelled from the spec: the aggregator itself ([runner.BulkIndex]) is
    not among the sources, only its tests are.  This follows the three
    steps of the algorithm of section 4.1; a response with the error flag
    set and no items is malformed and fails loudly (section 7). *)
Definition aggregate (resp : response) (req : BulkRequest)
    : outcome BulkOutcome :=
  if negb (errors resp)
  then Returned (mkBulkOutcome (bulk_size req) "docs" true 0 (index req)
                               None None)
  else
    match items resp with
    | None => Raised KeyError
    | Some its =>
        let a := scan (detailed_results req) its in
        Returned
          (mkBulkOutcome (bulk_size req) "docs" (acc_errors a =? 0)
             (acc_errors a) (index req)
             (if detailed_results req then Some (acc_ops a) else None)
             (if detailed_results req then Some (acc_hist a) else None))
    end.

(** The distinct elements of a list of signatures, each at the place of
    its first occurrence. *)
Fixpoint first_seen (l : list signature) : list signature :=
  match l with
  | [] => []
  | s :: rest =>
      s :: List.filter (fun t => negb (signature_eqb s t)) (first_seen rest)
  end.

(** How many items carry the signature [s]. *)
Definition occurrences (s : signature) (its : list item) : Z :=
  Z.of_nat (length (List.filter (fun it => signature_eqb s (shards it)) its)).

(** How many items have a status code outside 2xx. *)
Definition failures (its : list item) : Z :=
  Z.of_nat (length (List.filter (fun it => is_failure (status it)) its)).

Definition sum_counts (h : list (Z * signature)) : Z :=
  fold_right Z.add 0 (map fst h).

(** The fixtures of [test_bulk_index_success_with_metadata],
    [test_bulk_index_error] and [test_mixed_bulk_with_detailed_stats]. *)
Definition body_with_metadata (n : nat) : list string :=
  concat (repeat ["action_meta_data"; "index_line"] n).

Definition request_success_with_metadata : BulkRequest :=
  mkBulkRequest (body_with_metadata 3) true 3 None None false.

(** The items of [test_bulk_index_error] carry no outcome label; the empty
    label stands for that. *)
Definition items_index_error : list item :=
  [ mkItem "index" 201 (2, 1, 0) "";
    mkItem "index" 500 (2, 0, 2) "";
    mkItem "index" 404 (2, 0, 2) "" ].

Definition request_index_error : BulkRequest :=
  mkBulkRequest (body_with_metadata 3) true 3 (Some "test") None false.

Definition items_mixed_detailed : list item :=
  [ mkItem "index" 201 (2, 1, 0) "created";
    mkItem "update" 200 (2, 1, 0) "updated";
    mkItem "index" 500 (2, 0, 2) "noop";
    mkItem "index" 500 (2, 1, 1) "noop";
    mkItem "index" 201 (2, 1, 0) "created";
    mkItem "update" 404 (2, 0, 2) "noop" ].

Definition request_mixed_detailed : BulkRequest :=
  mkBulkRequest
    [ "action_meta_data"; "index_line"; "action_meta_data"; "update_line";
      "action_meta_data"; "index_line"; "action_meta_data"; "index_line";
      "action_meta_data"; "index_line"; "action_meta_data"; "update_line" ]
    true 6 (Some "test") None true.

(** The histogram alone: the fold of [histogram_add] over the shard
    tuples. *)
Definition histogram_of (its : list item) : list (Z * signature) :=
  fold_left (fun h it => histogram_add (shards it) h) its [].

(** The success flag as worded: false exactly when the response-level
    error flag is set. *)
Definition success_iff_no_error_flag (resp : response) (req : BulkRequest)
    : Prop :=
  forall out, aggregate resp req = Returned out ->
              (success out = false <-> errors resp = true).

(** A response with the error flag set whose only item has status 200. *)
Definition response_flagged_all_2xx : response :=
  mkResponse true (Some [mkItem "index" 200 (2, 1, 0) "created"]).

End Bulk.

(** ** Statements about the optimal selector *)

(** [r] sits in [cands] at a place where its total time is strictly below
    that of every earlier candidate and not above that of any candidate:
    the minimum, and among equal minima the earliest. *)
Definition earliest_minimum (cands : list Result) (r : Result) : Prop :=
  exists i : nat,
    cands !! i = Some r /\
    (forall (j : nat) r', (j < i)%nat -> cands !! j = Some r' ->
                          total_time r < total_time r') /\
    (forall (j : nat) r', cands !! j = Some r' ->
                          total_time r <= total_time r').

(** The selection as worded: over the results that pass the filter, the
    earliest minimum is returned, and nothing when none passes. *)
Definition selects_earliest_minimum (results : list Result) (allowed : Q)
    : Prop :=
  let cands := List.filter (passes allowed) results in
  (cands = [] -> select_optimal results allowed = None) /\
  (cands <> [] ->
   exists r, select_optimal results allowed = Some r /\
             earliest_minimum cands r).

(** A result that passes every filter but took [sys.maxsize] seconds. *)
Definition result_at_sentinel : Result :=
  mkResult 0 1 100 4 true sys_maxsize 0%Q None.

(** ** Statements about the executor *)

(** The last row of [rows] whose metric name is [name]. *)
Fixpoint last_row_named (name : string) (rows : list (gmap string string))
    : option (gmap string string) :=
  match rows with
  | [] => None
  | row :: rest =>
      match last_row_named name rest with
      | Some r => Some r
      | None =>
          if bool_decide (row !! METRIC_KEY = Some name) then Some row
          else None
      end
  end.


(** The failure path as worded: the executor returns a Result with
    [success] false, the elapsed whole seconds and no metrics. *)
Definition records_failure (elapsed : Q) (res : outcome Result * World)
    : Prop :=
  exists r, fst res = Returned r /\
            success r = false /\
            total_time r = int_of_float elapsed /\
            output r = None.

(** Sample surroundings. *)
Definition sample_args : Args := mkArgs "localhost:9200" None "/workloads/nyc".

Definition no_effect (fs : gmap string (list (gmap string string)))
    : gmap string (list (gmap string string)) := fs.

Definition sample_env (r : child_run) : Env :=
  mkEnv "/tmp/tmpk3v9" "1730700000.5" "0b1e" r.

Definition no_rate (_ : option (gmap string (gmap string string))) : Q := 0%Q.

(** The child is interrupted after two and a half seconds. *)
Definition interrupted_run : child_run := RunInterrupted (5 # 2) no_effect.

(** The child fails after two and a half seconds with plain text on
    stderr. *)
Definition failing_run : child_run :=
  RunExits (5 # 2) no_effect 1 [Byte.x6f; Byte.x6f; Byte.x70; Byte.x73].

(** The child fails and its stderr holds the byte 0xE9. *)
Definition failing_run_latin1 : child_run :=
  RunExits (5 # 2) no_effect 1 [Byte.x63; Byte.x61; Byte.x66; Byte.xe9].

(** The report rows of a run: one metric given twice, and a row that is
    itself named [Total time]. *)
Definition sample_rows : list (gmap string string) :=
  [ <[METRIC_KEY := "Mean Throughput"]> (<["Value" := "100"]> ∅);
    <[METRIC_KEY := TOTAL_TIME_KEY]> (<["Value" := "7"]> ∅);
    <[METRIC_KEY := "Mean Throughput"]> (<["Value" := "200"]> ∅) ].

(** ** The sweep driver *)

(** [batch_bulk_client_tuning], handed what its collaborators give it: the
    steps of the three schedules, the sweep
    [schedule_runner.run(run_batch_bulk_client_tests)] as a computation that
    yields the list of Results, and [float(args.allowed_error_rate)].  A
    Result object counts as true, so [not optimal] holds for [None] only. *)
Definition batch_bulk_client_tuning (batches bulks number_of_clients : list Z)
    (schedule_run : M (list Result)) (allowed_error_rate : Q)
    : M (list Result) :=
  let total := Z.of_nat (length batches) * Z.of_nat (length bulks)
               * Z.of_nat (length number_of_clients) in
  console_info ("There will be " +:+ pretty total +:+
                " tests to run with " +:+
                pretty (Z.of_nat (length bulks)) +:+ " bulk sizes, " +:+
                pretty (Z.of_nat (length batches)) +:+ " batch sizes, " +:+
                pretty (Z.of_nat (length number_of_clients)) +:+
                " client numbers.") ;;
  results ← schedule_run ;
  let successful_results :=
    get_successful_results results allowed_error_rate in
  let optimal := find_optimal_result successful_results in
  match optimal with
  | None => console_info "All tests failed, couldn't find any results!"
  | Some o =>
      console_info ("The optimal variable combination is: bulk size: " +:+
                    pretty (bulk_size o) +:+ ", batch size: " +:+
                    pretty (batch_size o) +:+ ", number of clients: " +:+
                    pretty (number_of_client o))
  end ;;
  mret results.

(** ** Further statements *)

(** The calls made between two worlds. *)
Definition new_events (w w' : World) : list event :=
  skipn (length (trace w)) (trace w').

(** The words one flag contributes to the command line. *)
Definition flag_words (kv : string * option string) : list string :=
  fst kv :: match snd kv with
            | Some v => if truthy (Some v) then [v] else []
            | None => []
            end.

(** Two sweep points of section 8: 50 seconds at error rate 0, 30 seconds
    at error rate 0.02. *)
Definition slow_clean_result : Result :=
  mkResult 1 1 100 4 true 50 0%Q None.

Definition fast_faulty_result : Result :=
  mkResult 2 2 100 8 true 30 (2 # 100)%Q None.

Definition failed_result : Result :=
  mkResult 3 2 100 4 false 10 0%Q None.

(** The child writes the sample report and exits with status zero. *)
Definition succeeding_run : child_run :=
  RunExits (5 # 2) (fun fs => <["/tmp/tmpk3v9" := sample_rows]> fs) 0 [].

(** The child removes the report file and exits with status zero. *)
Definition run_without_report : child_run :=
  RunExits (5 # 2) (fun fs => delete "/tmp/tmpk3v9" fs) 0 [].

(** The child writes a report that has no "Metric" column. *)
Definition run_with_bad_report : child_run :=
  RunExits (5 # 2)
           (fun fs => <["/tmp/tmpk3v9" := [ <["Value" := "1"]> ∅ ]]> fs) 0 [].

(** The mapping built from the sample report after two seconds. *)
Definition sample_output : gmap string (gmap string string) :=
  match build_output sample_rows 2 with
  | Returned output => output
  | Raised _ => ∅
  end.

(** ** Further statements about the aggregator *)

Module BulkMore.
Import Bulk.

(** The operation breakdown alone: the fold of [ops_add] over the items. *)
Definition ops_of (its : list item) : list (string * op_stats) :=
  fold_left (fun o it => ops_add (op_kind it) (result_label it) o) its [].

Definition sum_labels (c : list (string * Z)) : Z :=
  fold_right Z.add 0 (map snd c).

Definition sum_items (o : list (string * op_stats)) : Z :=
  fold_right Z.add 0 (map (fun p => item_count (snd p)) o).

(** The same request with the detailed-results flag set to [b]. *)
Definition with_detailed (b : bool) (req : BulkRequest) : BulkRequest :=
  mkBulkRequest (body req) (action_metadata_present req) (bulk_size req)
                (index req) (doc_type req) b.

(** The fields every outcome has, with or without breakdown. *)
Definition summary (out : BulkOutcome)
    : Z * string * bool * Z * option string :=
  (weight out, unit_label out, success out, error_count out, out_index out).

(** The items of [test_mixed_bulk_with_simple_stats]. *)
Definition items_mixed_simple : list item :=
  [ mkItem "index" 201 (2, 1, 0) "created";
    mkItem "update" 200 (2, 1, 0) "updated";
    mkItem "index" 500 (2, 0, 2) "noop";
    mkItem "update" 404 (2, 0, 2) "noop" ].

Definition request_mixed_simple : BulkRequest :=
  mkBulkRequest
    [ "action_meta_data"; "index_line"; "action_meta_data"; "update_line";
      "action_meta_data"; "index_line"; "action_meta_data"; "update_line" ]
    true 4 (Some "test") None false.

End BulkMore.

(** * Properties *)

(** ** The optimal selector *)

Lemma passes_iff (allowed : Q) (r : Result) :
  passes allowed r = true <->
  success r = true /\ (error_rate r <= allowed)%Q.
Proof.
  unfold passes. rewrite andb_true_iff, Qle_bool_iff. reflexivity.
Qed.

Lemma get_successful_results_from (allowed : Q) (results acc0 : list Result) :
  fold_left
    (fun successful_results result =>
       if passes allowed result
       then successful_results ++ [result]
       else successful_results)
    results acc0
  = acc0 ++ List.filter (passes allowed) results.
Proof.
  revert acc0. induction results as [|r results IH]; intros acc0; simpl.
  - now rewrite app_nil_r.
  - rewrite IH. destruct (passes allowed r); simpl.
    + now rewrite <- app_assoc.
    + reflexivity.
Qed.

Lemma get_successful_results_filter (results : list Result) (allowed : Q) :
  get_successful_results results allowed
  = List.filter (passes allowed) results.
Proof. unfold get_successful_results. now rewrite get_successful_results_from. Qed.

Lemma find_optimal_loop_cons (t : Z) (o : option Result) (a : Result)
    (l : list Result) :
  find_optimal_loop (t, o) (a :: l)
  = find_optimal_loop
      (if total_time a <? t then (total_time a, Some a) else (t, o)) l.
Proof. reflexivity. Qed.

(** What the loop of [find_optimal_result] computes from any starting
    state: either nothing in the list is below the running minimum and the
    state is unchanged, or the state ends on the earliest minimum. *)
Lemma find_optimal_loop_spec (l : list Result) :
  forall (t : Z) (o : option Result),
    (Forall (fun r => t <= total_time r) l /\
     find_optimal_loop (t, o) l = (t, o))
    \/
    (exists r, find_optimal_loop (t, o) l = (total_time r, Some r) /\
               total_time r < t /\ earliest_minimum l r).
Proof.
  induction l as [|a l IH]; intros t o.
  - left. split; [constructor | reflexivity].
  - rewrite find_optimal_loop_cons.
    destruct (Z.ltb_spec (total_time a) t) as [Hlt | Hge].
    + right. destruct (IH (total_time a) (Some a)) as [[Hall Heq] | (r & Heq & Hr & i & Hi & Hbefore & Hmin)].
      * exists a. split; [exact Heq | split; [exact Hlt |]].
        exists 0%nat. split; [reflexivity | split].
        -- intros j r' Hj. lia.
        -- intros [|j] r' Hj; simpl in Hj.
           ++ inversion Hj. lia.
           ++ rewrite Forall_forall in Hall.
              apply Hall. eapply list_elem_of_lookup_2. exact Hj.
      * exists r. split; [exact Heq | split; [lia |]].
        exists (S i). split; [exact Hi | split].
        -- intros [|j] r' Hj Hl; simpl in Hl.
           ++ inversion Hl; subst. exact Hr.
           ++ apply (Hbefore j); [lia | exact Hl].
        -- intros [|j] r' Hl; simpl in Hl.
           ++ inversion Hl; subst. lia.
           ++ apply (Hmin j). exact Hl.
    + destruct (IH t o) as [[Hall Heq] | (r & Heq & Hr & i & Hi & Hbefore & Hmin)].
      * left. split; [constructor; [exact Hge | exact Hall] | exact Heq].
      * right. exists r. split; [exact Heq | split; [exact Hr |]].
        exists (S i). split; [exact Hi | split].
        -- intros [|j] r' Hj Hl; simpl in Hl.
           ++ inversion Hl; subst. lia.
           ++ apply (Hbefore j); [lia | exact Hl].
        -- intros [|j] r' Hl; simpl in Hl.
           ++ inversion Hl; subst. lia.
           ++ apply (Hmin j). exact Hl.
Qed.

Lemma find_optimal_result_cases (l : list Result) :
  (Forall (fun r => sys_maxsize <= total_time r) l /\
   find_optimal_result l = None)
  \/
  (exists r, find_optimal_result l = Some r /\
             total_time r < sys_maxsize /\ earliest_minimum l r).
Proof.
  unfold find_optimal_result.
  destruct (find_optimal_loop_spec l sys_maxsize None)
    as [[Hall Heq] | (r & Heq & Hr & Hmin)].
  - left. rewrite Heq. auto.
  - right. exists r. rewrite Heq. auto.
Qed.

(** C1, as worded, fails: a lone result that passes the filter but took
    [sys.maxsize] seconds is a candidate, yet nothing is selected. *)
Lemma selects_earliest_minimum_fails :
  ~ selects_earliest_minimum [result_at_sentinel] 0%Q.
Proof.
  intros [_ Hsome].
  destruct Hsome as (r & Hsel & _).
  - discriminate.
  - vm_compute in Hsel. discriminate.
Qed.

(** C1 (amended): the selection considers exactly the results with
    [success] true and error rate at most the allowed one, in input order;
    when some candidate took less than [sys.maxsize] seconds it returns the
    earliest candidate of minimal total time (strictly below every earlier
    candidate, so ties keep the earliest); it returns nothing when no result
    passes the filter, and also when every candidate took [sys.maxsize]
    seconds or more. *)
Theorem optimal_selection_spec (results : list Result) (allowed : Q) :
  get_successful_results results allowed
    = List.filter (passes allowed) results /\
  (forall r, passes allowed r = true <->
             success r = true /\ (error_rate r <= allowed)%Q) /\
  (List.filter (passes allowed) results = [] ->
   select_optimal results allowed = None) /\
  (Exists (fun r => total_time r < sys_maxsize)
          (List.filter (passes allowed) results) ->
   exists r, select_optimal results allowed = Some r /\
             earliest_minimum (List.filter (passes allowed) results) r) /\
  (Forall (fun r => sys_maxsize <= total_time r)
          (List.filter (passes allowed) results) ->
   select_optimal results allowed = None).
Proof.
  unfold select_optimal. rewrite get_successful_results_filter.
  set (cands := List.filter (passes allowed) results).
  split; [reflexivity |].
  split; [intros r; apply passes_iff |].
  destruct (find_optimal_result_cases cands)
    as [[Hall Hnone] | (r & Hsome & Hlt & Hmin)].
  - split; [auto |]. split; [| auto].
    intros Hex. exfalso.
    apply Exists_exists in Hex. destruct Hex as (x & Hin & Hx).
    rewrite Forall_forall in Hall. specialize (Hall x Hin). lia.
  - destruct Hmin as (i & Hi & Hrest).
    split; [| split].
    + intros Hnil. rewrite Hnil in Hi. discriminate.
    + intros _. exists r. split; [exact Hsome |]. exists i. auto.
    + intros Hall. exfalso. rewrite Forall_forall in Hall.
      assert (Hin : r ∈ cands) by (eapply list_elem_of_lookup_2; exact Hi).
      specialize (Hall r Hin). lia.
Qed.

(** C9: the running minimum starts at [sys.maxsize] and the comparison is
    strict, so a result whose total time is [sys.maxsize] or more is never
    returned, whatever the list; alone in the list, it yields none. *)
Theorem find_optimal_result_below_sentinel (results : list Result)
    (r : Result) :
  sys_maxsize <= total_time r ->
  find_optimal_result results <> Some r /\ find_optimal_result [r] = None.
Proof.
  intros Hge. split.
  - intros Hsel.
    destruct (find_optimal_result_cases results)
      as [[_ Hnone] | (r' & Hsome & Hlt & _)].
    + congruence.
    + assert (r' = r) by congruence. subst. lia.
  - unfold find_optimal_result. rewrite find_optimal_loop_cons.
    destruct (Z.ltb_spec (total_time r) sys_maxsize); [lia | reflexivity].
Qed.

Lemma find_optimal_result_below_sentinel_witness :
  sys_maxsize <= total_time result_at_sentinel /\
  find_optimal_result [result_at_sentinel; result_at_sentinel]
    <> Some result_at_sentinel /\
  find_optimal_result [result_at_sentinel] = None.
Proof.
  split.
  - vm_compute. discriminate.
  - apply (find_optimal_result_below_sentinel
             [result_at_sentinel; result_at_sentinel] result_at_sentinel).
    vm_compute. discriminate.
Defined.

(** ** The benchmark subprocess runner *)

Lemma int_of_float_proper (x y : Q) :
  (x == y)%Q -> int_of_float x = int_of_float y.
Proof.
  unfold Qeq, int_of_float. intros H.
  rewrite <- (Z.quot_mul_cancel_r (Qnum x) (Z.pos (Qden x)) (Z.pos (Qden y)))
    by lia.
  rewrite H.
  rewrite (Z.mul_comm (Z.pos (Qden x)) (Z.pos (Qden y))).
  apply Z.quot_mul_cancel_r; lia.
Qed.

Lemma run_benchmark_exits (d : Q) effect (rc : Z) (stderr : list Byte.byte)
    (params : list (string * option string)) (w : World) :
  run_benchmark (RunExits d effect rc stderr) params w
  = ((if is_ascii stderr
      then Returned (rc =? 0,
                     String.string_of_list_ascii
                       (map Ascii.ascii_of_byte stderr))
      else Raised UnicodeDecodeError),
     mkWorld (effect (files w)) (Reaped rc) (now w + d)%Q
             ((trace w ++ [EvPopen (build_commands params)])
              ++ [EvCommunicate])).
Proof.
  unfold run_benchmark, try_except_interrupt, mbind, M_bind, clear_proc,
    Popen, communicate, decode_ascii. simpl.
  destruct (is_ascii stderr); reflexivity.
Qed.

Lemma run_benchmark_interrupted (d : Q) effect
    (params : list (string * option string)) (w : World) :
  run_benchmark (RunInterrupted d effect) params w
  = (Raised KeyboardInterrupt,
     mkWorld (effect (files w)) Signalled (now w + d)%Q
             ((((trace w ++ [EvPopen (build_commands params)])
                ++ [EvCommunicate]) ++ [EvTerminate])
              ++ [EvConsoleInfo "Process is terminated!"])).
Proof. reflexivity. Qed.

(** An interrupt that arrives before [Popen] has returned finds [proc]
    still [None]: the handler itself fails on [proc.terminate()]. *)
Lemma run_benchmark_spawn_interrupted
    (params : list (string * option string)) (w : World) :
  fst (run_benchmark SpawnInterrupted params w) = Raised AttributeError.
Proof. reflexivity. Qed.



(** ** The single-point executor *)

Lemma remove_if_exists_spec (filename : string) (w : World) :
  exists w', remove_if_exists filename w = (Returned tt, w') /\
             files w' !! filename = None /\
             child w' = child w /\ now w' = now w.
Proof.
  unfold remove_if_exists, mbind, M_bind, os_path_exists, os_remove.
  destruct (files w !! filename) as [rows|] eqn:E.
  - rewrite bool_decide_eq_true_2 by eauto. rewrite E.
    eexists. split; [reflexivity |]. simpl.
    split; [apply lookup_delete_eq | auto].
  - rewrite bool_decide_eq_false_2 by (intros [? ?]; discriminate).
    exists w. auto.
Qed.

Section SweepPointFacts.

Variable error_rate_of : option (gmap string (gmap string string)) -> Q.

Lemma record_run_failed (result : Result) (filename : string) (start : Q)
    (ran : option (bool * string)) (w : World) :
  match ran with Some p => fst p | None => false end = false ->
  record_run error_rate_of result filename start ran w
  = (Returned (set_output error_rate_of result false
                          (int_of_float (now w - start)%Q) None),
     mkWorld (files w) (child w) (now w)
             (trace w ++ [EvLogError
                            match ran with
                            | Some p => Some (snd p)
                            | None => None
                            end])).
Proof.
  intros H. unfold record_run. rewrite H.
  reflexivity.
Qed.

(** The executor, cut at its [try] statement. *)
Lemma run_batch_bulk_client_tests_unfold (env : Env) (args : Args)
    (test_id batch bulk client : Z) (w : World) :
  run_batch_bulk_client_tests error_rate_of env args test_id batch bulk
                              client w
  = match
      try_finally
        (run_benchmark (run env)
           (get_benchmark_params env args batch bulk client (temp_name env)))
        (record_run error_rate_of
           (new_Result error_rate_of test_id batch bulk client)
           (temp_name env) (now w))
        (mkWorld (<[temp_name env := []]> (files w)) (child w) (now w)
           (trace w ++
            [EvConsoleInfo
               ("Running benchmark with: bulk size: " +:+ pretty bulk +:+
                ", number of clients: " +:+ pretty client +:+
                ", batch size: " +:+ pretty batch)]))
    with
    | (Returned done, w1) =>
        match remove_if_exists (temp_name env) w1 with
        | (Returned _, w2) => (Returned (snd done), w2)
        | (Raised e, w2) => (Raised e, w2)
        end
    | (Raised e, w1) => (Raised e, w1)
    end.
Proof. reflexivity. Qed.

(** A child that exits non-zero with ASCII text on stderr: the executor
    returns the failed Result and the report file is gone. *)
Lemma run_failed (env : Env) (args : Args) (test_id batch bulk client : Z)
    (w : World) (d : Q) effect (rc : Z) (stderr : list Byte.byte) :
  run env = RunExits d effect rc stderr ->
  rc <> 0 ->
  is_ascii stderr = true ->
  exists w',
    run_batch_bulk_client_tests error_rate_of env args test_id batch bulk
                                client w
    = (Returned (set_output error_rate_of
                   (new_Result error_rate_of test_id batch bulk client)
                   false (int_of_float d) None), w') /\
    files w' !! temp_name env = None.
Proof.
  intros Hrun Hrc Hascii.
  rewrite run_batch_bulk_client_tests_unfold.
  unfold try_finally.
  rewrite Hrun, run_benchmark_exits, Hascii.
  rewrite record_run_failed by (simpl; lia).
  cbn [now files child trace snd].
  match goal with
  | |- context [remove_if_exists ?f ?w0] =>
      destruct (remove_if_exists_spec f w0) as (w' & Hrm & Hgone & _)
  end.
  rewrite Hrm. exists w'. split; [| exact Hgone].
  rewrite (int_of_float_proper (now w + d - now w)%Q d) by ring.
  reflexivity.
Qed.

(** The interrupt goes through the executor: the [finally] block runs,
    the lines after it do not. *)
Lemma run_interrupted (env : Env) (args : Args)
    (test_id batch bulk client : Z) (w : World) (d : Q) effect :
  run env = RunInterrupted d effect ->
  exists w',
    run_batch_bulk_client_tests error_rate_of env args test_id batch bulk
                                client w
    = (Raised KeyboardInterrupt, w') /\
    files w' = effect (<[temp_name env := []]> (files w)) /\
    ~ In (EvRemove (temp_name env)) (skipn (length (trace w)) (trace w')).
Proof.
  intros Hrun.
  rewrite run_batch_bulk_client_tests_unfold.
  unfold try_finally.
  rewrite Hrun, run_benchmark_interrupted.
  rewrite record_run_failed by reflexivity.
  cbn [now files child trace snd].
  eexists. split; [reflexivity |]. cbn [files trace].
  split; [reflexivity |].
  rewrite <- !app_assoc. rewrite skipn_app, skipn_all, Nat.sub_diag.
  simpl. intros H.
  repeat (destruct H as [H | H]; [discriminate |]). exact H.
Qed.

Lemma record_run_succeeded (result : Result) (filename : string)
    (start : Q) (err : string) (w : World) :
  record_run error_rate_of result filename start (Some (true, err)) w
  = match files w !! filename with
    | Some rows =>
        match build_output rows (int_of_float (now w - start)%Q) with
        | Returned output =>
            (Returned (set_output error_rate_of result true
                         (int_of_float (now w - start)%Q) (Some output)), w)
        | Raised e => (Raised e, w)
        end
    | None => (Raised FileNotFoundError, w)
    end.
Proof.
  unfold record_run, mbind, M_bind, timer, read_csv, lift. simpl.
  destruct (files w !! filename) as [rows|]; [| reflexivity].
  destruct (build_output rows _); reflexivity.
Qed.

(** A child that exits with status zero and leaves a readable report: the
    executor returns the successful Result, with the same elapsed time as
    on the failure path, and the report file is gone. *)
Lemma run_succeeded (env : Env) (args : Args)
    (test_id batch bulk client : Z) (w : World) (d : Q) effect
    (stderr : list Byte.byte) (rows : list (gmap string string))
    (output : gmap string (gmap string string)) :
  run env = RunExits d effect 0 stderr ->
  is_ascii stderr = true ->
  effect (<[temp_name env := []]> (files w)) !! temp_name env = Some rows ->
  build_output rows (int_of_float d) = Returned output ->
  exists w',
    run_batch_bulk_client_tests error_rate_of env args test_id batch bulk
                                client w
    = (Returned (set_output error_rate_of
                   (new_Result error_rate_of test_id batch bulk client)
                   true (int_of_float d) (Some output)), w') /\
    files w' !! temp_name env = None.
Proof.
  intros Hrun Hascii Hrows Hout.
  rewrite run_batch_bulk_client_tests_unfold.
  unfold try_finally.
  rewrite Hrun, run_benchmark_exits, Hascii.
  change (0 =? 0) with true.
  rewrite record_run_succeeded.
  cbn [now files child trace snd].
  rewrite Hrows.
  rewrite (int_of_float_proper (now w + d - now w)%Q d) by ring.
  rewrite Hout.
  match goal with
  | |- context [remove_if_exists ?f ?w0] =>
      destruct (remove_if_exists_spec f w0) as (w' & Hrm & Hgone & _)
  end.
  rewrite Hrm. exists w'. split; [reflexivity | exact Hgone].
Qed.

End SweepPointFacts.

(** C2, at the failing input: when the interrupt arrives while the child
    runs, the executor raises [KeyboardInterrupt] and the report file that
    [mkstemp] created, unless the child itself removed it, is still there:
    the removal after the [try] statement is never reached. *)
Theorem interrupted_run_keeps_report
    (error_rate_of : option (gmap string (gmap string string)) -> Q)
    (env : Env) (args : Args) (test_id batch bulk client : Z) (w : World)
    (d : Q) effect :
  run env = RunInterrupted d effect ->
  is_Some (effect (<[temp_name env := []]> (files w)) !! temp_name env) ->
  exists w',
    run_batch_bulk_client_tests error_rate_of env args test_id batch bulk
                                client w
    = (Raised KeyboardInterrupt, w') /\
    is_Some (files w' !! temp_name env).
Proof.
  intros Hrun Hkept.
  destruct (run_interrupted error_rate_of env args test_id batch bulk client
                            w d effect Hrun) as (w' & Hres & Hfiles & _).
  exists w'. split; [exact Hres |]. now rewrite Hfiles.
Qed.

Lemma interrupted_run_keeps_report_witness :
  exists w',
    run_batch_bulk_client_tests no_rate (sample_env interrupted_run)
                                sample_args 1 1 100 4 initial_world
    = (Raised KeyboardInterrupt, w') /\
    is_Some (files w' !! "/tmp/tmpk3v9").
Proof.
  apply (interrupted_run_keeps_report no_rate (sample_env interrupted_run)
           sample_args 1 1 100 4 initial_world (5 # 2) no_effect).
  - reflexivity.
  - vm_compute. eauto.
Defined.

(** C8, at the failing input: a child that exits with status 1 and whose
    stderr holds the byte 0xE9 makes the executor raise
    [UnicodeDecodeError], out of [stderr.decode('ascii')], instead of
    returning the failed Result. *)
Theorem failed_run_latin1_raises :
  fst (run_batch_bulk_client_tests no_rate (sample_env failing_run_latin1)
                                   sample_args 1 1 100 4 initial_world)
  = Raised UnicodeDecodeError /\
  ~ records_failure (5 # 2)
      (run_batch_bulk_client_tests no_rate (sample_env failing_run_latin1)
                                   sample_args 1 1 100 4 initial_world).
Proof.
  split.
  - vm_compute. reflexivity.
  - intros (r & Hr & _). vm_compute in Hr. discriminate.
Qed.

(** The sibling path: for every sweep point whose child exits non-zero
    with ASCII text on stderr, the executor returns normally a Result with
    [success] false, the elapsed time truncated to whole seconds, and no
    metrics mapping. *)
Theorem failed_run_is_recorded
    (error_rate_of : option (gmap string (gmap string string)) -> Q)
    (env : Env) (args : Args) (test_id batch bulk client : Z) (w : World)
    (d : Q) effect (rc : Z) (stderr : list Byte.byte) :
  run env = RunExits d effect rc stderr ->
  rc <> 0 ->
  is_ascii stderr = true ->
  records_failure d
    (run_batch_bulk_client_tests error_rate_of env args test_id batch bulk
                                 client w).
Proof.
  intros Hrun Hrc Hascii.
  destruct (run_failed error_rate_of env args test_id batch bulk client w d
                       effect rc stderr Hrun Hrc Hascii) as (w' & Hres & _).
  rewrite Hres. eexists. split; [reflexivity |]. simpl. auto.
Qed.

Lemma failed_run_is_recorded_witness :
  records_failure (5 # 2)
    (run_batch_bulk_client_tests no_rate (sample_env failing_run)
                                 sample_args 1 1 100 4 initial_world).
Proof.
  apply (failed_run_is_recorded no_rate (sample_env failing_run) sample_args
           1 1 100 4 initial_world (5 # 2) no_effect 1
           [Byte.x6f; Byte.x6f; Byte.x70; Byte.x73]).
  - reflexivity.
  - discriminate.
  - reflexivity.
Defined.

(** ** The metrics mapping *)

Lemma last_row_named_Some (name : string) (rows : list (gmap string string))
    (r : gmap string string) :
  last_row_named name rows = Some r ->
  exists k : nat, rows !! k = Some r /\ r !! METRIC_KEY = Some name.
Proof.
  induction rows as [|row rest IH]; simpl; [discriminate |].
  destruct (last_row_named name rest) as [r'|].
  - intros [= ->]. destruct IH as (k & Hk & Hm); [reflexivity |].
    exists (S k). auto.
  - destruct (bool_decide_reflect (row !! METRIC_KEY = Some name)) as [Hm|];
      [| discriminate].
    intros [= ->]. exists 0%nat. auto.
Qed.

(** A row named [name] at place [j] is shadowed only by a row at [j] or
    later. *)
Lemma last_row_named_ge (name : string) (rows : list (gmap string string)) :
  forall (j : nat) (rj : gmap string string),
    rows !! j = Some rj -> rj !! METRIC_KEY = Some name ->
    exists (k : nat) (rk : gmap string string),
      (j <= k)%nat /\ rows !! k = Some rk /\
      rk !! METRIC_KEY = Some name /\
      last_row_named name rows = Some rk.
Proof.
  induction rows as [|row rest IH]; intros j rj Hj Hm; [discriminate |].
  simpl. destruct j as [|j]; simpl in Hj.
  - injection Hj as ->.
    destruct (last_row_named name rest) as [r'|] eqn:E.
    + destruct (last_row_named_Some name rest r' E) as (k & Hk & Hm').
      exists (S k), r'. repeat split; auto. lia.
    + rewrite bool_decide_eq_true_2 by exact Hm.
      exists 0%nat, rj. auto.
  - destruct (IH j rj Hj Hm) as (k & rk & Hle & Hk & Hmk & Hlast).
    rewrite Hlast. exists (S k), rk. repeat split; auto. lia.
Qed.

Lemma read_metrics_lookup (rows : list (gmap string string)) :
  forall (output m : gmap string (gmap string string)),
    read_metrics rows output = Returned m ->
    forall name : string,
      m !! name = match last_row_named name rows with
                  | Some r => Some r
                  | None => output !! name
                  end.
Proof.
  induction rows as [|row rest IH]; intros output m Hread name; simpl in *.
  - now injection Hread as ->.
  - destruct (row !! METRIC_KEY) as [n0|] eqn:E; [| discriminate].
    rewrite (IH _ _ Hread name).
    destruct (last_row_named name rest); [reflexivity |].
    destruct (bool_decide_reflect (Some n0 = Some name)) as [Heq | Hne].
    + injection Heq as ->. apply lookup_insert_eq.
    + apply lookup_insert_ne. congruence.
Qed.

Lemma read_metrics_total (rows : list (gmap string string)) :
  forall output : gmap string (gmap string string),
    Forall (fun row => is_Some (row !! METRIC_KEY)) rows ->
    exists m, read_metrics rows output = Returned m.
Proof.
  induction rows as [|row rest IH]; intros output Hall; simpl.
  - eauto.
  - inversion Hall as [|? ? [n0 Hn0] Hrest]; subst.
    rewrite Hn0. apply IH. exact Hrest.
Qed.

(** C10: the mapping is built row by row in file order under the value of
    the "Metric" column, so of the rows sharing a metric name the last one
    is the one kept: for two rows of the same name the entry is a row at the
    place of the later one or after it.  The entry under "Total time" is
    always the synthetic row, whatever rows of that name the report has.
    The mapping is built whenever every row has a "Metric" cell. *)
Theorem build_output_later_row_wins (rows : list (gmap string string))
    (total_time : Z) :
  (Forall (fun row => is_Some (row !! METRIC_KEY)) rows ->
   exists output, build_output rows total_time = Returned output) /\
  (forall output, build_output rows total_time = Returned output ->
     output !! TOTAL_TIME_KEY = Some (total_time_row total_time) /\
     (forall name, name <> TOTAL_TIME_KEY ->
                   output !! name = last_row_named name rows) /\
     (forall (i j : nat) ri rj name,
        (i < j)%nat ->
        rows !! i = Some ri -> rows !! j = Some rj ->
        ri !! METRIC_KEY = Some name -> rj !! METRIC_KEY = Some name ->
        name <> TOTAL_TIME_KEY ->
        exists (k : nat) rk,
          (j <= k)%nat /\ rows !! k = Some rk /\
          rk !! METRIC_KEY = Some name /\ output !! name = Some rk)).
Proof.
  unfold build_output. split.
  - intros Hall. destruct (read_metrics_total rows ∅ Hall) as (m & ->). eauto.
  - intros output Hbuild.
    destruct (read_metrics rows ∅) as [m|e] eqn:Hread; [| discriminate].
    injection Hbuild as <-.
    assert (Hother : forall name, name <> TOTAL_TIME_KEY ->
              <[TOTAL_TIME_KEY := total_time_row total_time]> m !! name
              = last_row_named name rows).
    { intros name Hne. rewrite lookup_insert_ne by congruence.
      rewrite (read_metrics_lookup rows ∅ m Hread name).
      destruct (last_row_named name rows); [reflexivity | apply lookup_empty]. }
    split; [apply lookup_insert_eq |]. split; [exact Hother |].
    intros i j ri rj name _ _ Hj _ Hmj Hne.
    destruct (last_row_named_ge name rows j rj Hj Hmj)
      as (k & rk & Hle & Hk & Hmk & Hlast).
    exists k, rk. rewrite (Hother name Hne). auto.
Qed.

(** On the sample report the first "Mean Throughput" row and the
    "Total time" row are both replaced. *)
Example build_output_sample :
  exists output,
    build_output sample_rows 2 = Returned output /\
    output !! "Mean Throughput"
      = Some (<[METRIC_KEY := "Mean Throughput"]> (<["Value" := "200"]> ∅)) /\
    output !! TOTAL_TIME_KEY = Some (total_time_row 2).
Proof.
  eexists. split; [reflexivity |]. split; reflexivity.
Qed.

(** ** The bulk response aggregator *)

Module BulkFacts.
Import Bulk.

Lemma signature_eqb_eq (s t : signature) :
  signature_eqb s t = true <-> s = t.
Proof.
  destruct s as [[a b] c], t as [[a' b'] c']. unfold signature_eqb. simpl.
  rewrite !andb_true_iff, !Z.eqb_eq. split.
  - intros [[-> ->] ->]. reflexivity.
  - intros [= -> -> ->]. auto.
Qed.

Lemma signature_eqb_refl (s : signature) : signature_eqb s s = true.
Proof. now apply signature_eqb_eq. Qed.

Lemma signature_eqb_neq (s t : signature) :
  s <> t -> signature_eqb s t = false.
Proof.
  intros H. destruct (signature_eqb s t) eqn:E; [| reflexivity].
  apply signature_eqb_eq in E. contradiction.
Qed.

(** *** The error count *)

Lemma failures_cons (it : item) (its : list item) :
  failures (it :: its)
  = (if is_failure (status it) then 1 else 0) + failures its.
Proof.
  unfold failures. simpl. destruct (is_failure (status it)); simpl; lia.
Qed.

Lemma failures_nonneg (its : list item) : 0 <= failures its.
Proof. unfold failures. lia. Qed.

Lemma scan_errors_from (detailed : bool) (its : list item) :
  forall a : acc,
    acc_errors (fold_left (step detailed) its a)
    = acc_errors a + failures its.
Proof.
  induction its as [|it its IH]; intros a; simpl.
  - unfold failures. simpl. lia.
  - rewrite IH, failures_cons. unfold step.
    destruct detailed, (is_failure (status it)); simpl; lia.
Qed.

Lemma scan_errors (detailed : bool) (its : list item) :
  acc_errors (scan detailed its) = failures its.
Proof. unfold scan. rewrite scan_errors_from. simpl. lia. Qed.

(** The count looks at status codes only. *)
Lemma failures_status_only (its its' : list item) :
  map status its = map status its' -> failures its = failures its'.
Proof.
  revert its'. induction its as [|it its IH]; intros [|it' its'] H;
    try discriminate; [reflexivity |].
  simpl in H. injection H as Hs Hrest.
  rewrite !failures_cons, Hs, (IH its' Hrest). reflexivity.
Qed.

(** C3: with the top-level error flag false the aggregator returns at
    once: weight the declared bulk size (whatever the body holds), unit
    "docs", success, no errors, the declared index or none, and neither an
    operation breakdown nor a shard histogram, whatever the
    detailed-results flag and the items are. *)
Theorem aggregate_without_errors (resp : response) (req : BulkRequest) :
  errors resp = false ->
  aggregate resp req
  = Returned (mkBulkOutcome (bulk_size req) "docs" true 0 (index req)
                            None None).
Proof. intros H. unfold aggregate. rewrite H. reflexivity. Qed.

Lemma aggregate_without_errors_witness :
  aggregate (mkResponse false None) request_success_with_metadata
  = Returned (mkBulkOutcome 3 "docs" true 0 None None None) /\
  length (body request_success_with_metadata) = 6%nat.
Proof.
  split.
  - apply (aggregate_without_errors (mkResponse false None)
             request_success_with_metadata).
    reflexivity.
  - reflexivity.
Defined.

(** C4: with the top-level error flag true, the error count is the number
    of response items whose status code is outside 2xx; the outcome labels
    play no part: two responses with the same status codes item by item
    give the same count. *)
Theorem aggregate_error_count (resp : response) (req : BulkRequest)
    (its : list item) :
  errors resp = true ->
  items resp = Some its ->
  (exists out, aggregate resp req = Returned out /\
               error_count out = failures its) /\
  (forall its' out',
     map status its' = map status its ->
     aggregate (mkResponse true (Some its')) req = Returned out' ->
     error_count out' = failures its).
Proof.
  intros He Hi. split.
  - unfold aggregate. rewrite He, Hi. simpl.
    eexists. split; [reflexivity |]. simpl. apply scan_errors.
  - intros its' out' Hst Hagg. unfold aggregate in Hagg. simpl in Hagg.
    injection Hagg as <-. simpl.
    rewrite scan_errors. now apply failures_status_only.
Qed.

Lemma aggregate_error_count_witness :
  exists out,
    aggregate (mkResponse true (Some items_index_error)) request_index_error
    = Returned out /\
    error_count out = 2.
Proof.
  apply (aggregate_error_count
           (mkResponse true (Some items_index_error)) request_index_error
           items_index_error); reflexivity.
Defined.

(** Under step 3 of section 4.1, which [aggregate] follows, success is
    (error count = 0): with the error flag set and a single item of status
    200 the outcome is a success.  Section 3 words the flag otherwise
    (false exactly when the error flag is set); the two agree on every
    fixture of the tests. *)
Lemma flagged_all_2xx_is_success :
  ~ success_iff_no_error_flag response_flagged_all_2xx request_index_error.
Proof.
  intros H.
  specialize (H _ eq_refl). simpl in H.
  destruct H as [_ H]. specialize (H eq_refl). discriminate.
Qed.

(** The success flag of [aggregate]: false exactly when the error count
    is not zero, that is when the error flag is set and some item has a
    status code outside 2xx; so an unsuccessful outcome always has the
    error flag set. *)
Theorem aggregate_success_flag (resp : response) (req : BulkRequest)
    (out : BulkOutcome) :
  aggregate resp req = Returned out ->
  (success out = false -> errors resp = true) /\
  (success out = false <->
   errors resp = true /\
   exists its, items resp = Some its /\ 0 < failures its) /\
  (success out = (error_count out =? 0)).
Proof.
  unfold aggregate. destruct (errors resp) eqn:He; simpl.
  - destruct (items resp) as [its|] eqn:Hi; [| discriminate].
    intros [= <-]. simpl. rewrite scan_errors.
    pose proof (failures_nonneg its) as Hnn.
    split; [auto |]. split; [| reflexivity]. split.
    + intros H. apply Z.eqb_neq in H. split; [reflexivity |].
      exists its. split; [reflexivity | lia].
    + intros (_ & its' & [= <-] & Hpos). apply Z.eqb_neq. lia.
  - intros [= <-]. simpl. split; [discriminate |].
    split; [| reflexivity]. split; [discriminate |].
    intros [? _]. discriminate.
Qed.

Lemma aggregate_success_flag_witness :
  (false = false -> true = true) /\
  (false = false <->
   true = true /\
   exists its, Some items_index_error = Some its /\ 0 < failures its) /\
  (false = (2 =? 0)).
Proof.
  apply (aggregate_success_flag
           (mkResponse true (Some items_index_error)) request_index_error
           (mkBulkOutcome 3 "docs" false 2 (Some "test") None None)).
  reflexivity.
Defined.

(** *** The shard histogram *)

Lemma scan_hist_from (its : list item) :
  forall a : acc,
    acc_hist (fold_left (step true) its a)
    = fold_left (fun h it => histogram_add (shards it) h) its (acc_hist a).
Proof.
  induction its as [|it its IH]; intros a; simpl; [reflexivity |].
  now rewrite IH.
Qed.

Lemma scan_hist (its : list item) :
  acc_hist (scan true its) = histogram_of its.
Proof. unfold scan, histogram_of. now rewrite scan_hist_from. Qed.

Lemma histogram_of_snoc (its : list item) (it : item) :
  histogram_of (its ++ [it]) = histogram_add (shards it) (histogram_of its).
Proof. unfold histogram_of. now rewrite fold_left_app. Qed.

Lemma sum_counts_add (s : signature) (h : list (Z * signature)) :
  sum_counts (histogram_add s h) = sum_counts h + 1.
Proof.
  unfold sum_counts. induction h as [|[n t] h IH]; simpl; [lia |].
  destruct (signature_eqb t s); simpl; lia.
Qed.

(** The signatures of the histogram after one more item. *)
Lemma histogram_add_keys (s : signature) (h : list (Z * signature)) :
  map snd (histogram_add s h)
  = map snd h ++ (if decide (s ∈ map snd h) then [] else [s]).
Proof.
  induction h as [|[n t] h IH]; simpl.
  - reflexivity.
  - destruct (signature_eqb t s) eqn:E; simpl.
    + apply signature_eqb_eq in E. subst t.
      destruct (decide (s ∈ s :: map snd h)) as [_ | Hout].
      * now rewrite app_nil_r.
      * exfalso. apply Hout. apply list_elem_of_here.
    + rewrite IH. f_equal.
      assert (Hne : t <> s).
      { intros ->. rewrite signature_eqb_refl in E. discriminate. }
      destruct (decide (s ∈ map snd h)) as [Hin | Hout],
               (decide (s ∈ t :: map snd h)) as [Hin' | Hout'];
        try reflexivity.
      * exfalso. apply Hout'. now apply list_elem_of_further.
      * apply elem_of_cons in Hin' as [-> | Hin']; contradiction.
Qed.

Lemma elem_of_filter_other (a s : signature) (l : list signature) :
  s ∈ List.filter (fun t => negb (signature_eqb a t)) l <-> s ∈ l /\ s <> a.
Proof.
  rewrite !list_elem_of_In, filter_In, negb_true_iff.
  split; intros [Hin H]; (split; [exact Hin |]).
  - intros ->. rewrite signature_eqb_refl in H. discriminate.
  - apply signature_eqb_neq. congruence.
Qed.

Lemma elem_of_first_seen (s : signature) (l : list signature) :
  s ∈ first_seen l <-> s ∈ l.
Proof.
  induction l as [|a l IH]; simpl; [reflexivity |].
  rewrite !elem_of_cons, elem_of_filter_other, IH.
  destruct (decide (s = a)); tauto.
Qed.

Lemma first_seen_snoc (l : list signature) (s : signature) :
  first_seen (l ++ [s])
  = first_seen l ++ (if decide (s ∈ l) then [] else [s]).
Proof.
  induction l as [|a l IH]; simpl.
  - reflexivity.
  - rewrite IH, List.filter_app. f_equal. f_equal.
    destruct (decide (s ∈ l)) as [Hin | Hout],
             (decide (s ∈ a :: l)) as [Hin' | Hout']; simpl.
    + reflexivity.
    + exfalso. apply Hout'. now apply list_elem_of_further.
    + apply elem_of_cons in Hin' as [-> | Hin']; [| contradiction].
      now rewrite signature_eqb_refl.
    + rewrite signature_eqb_neq; [reflexivity |].
      intros ->. apply Hout'. apply list_elem_of_here.
Qed.

Lemma NoDup_first_seen (l : list signature) : NoDup (first_seen l).
Proof.
  induction l as [|a l IH]; simpl; [constructor |].
  constructor.
  - rewrite elem_of_filter_other. tauto.
  - apply NoDup_ListNoDup, List.NoDup_filter, NoDup_ListNoDup, IH.
Qed.

Lemma histogram_of_keys (its : list item) :
  map snd (histogram_of its) = first_seen (map shards its).
Proof.
  induction its as [|it its IH] using rev_ind; [reflexivity |].
  rewrite histogram_of_snoc, histogram_add_keys, map_app.
  change (map shards [it]) with [shards it].
  rewrite first_seen_snoc, IH. f_equal.
  destruct (decide (shards it ∈ first_seen (map shards its))) as [H | H];
    rewrite elem_of_first_seen in H.
  - now rewrite decide_True.
  - now rewrite decide_False.
Qed.

Lemma elem_of_histogram_add (s : signature) (h : list (Z * signature))
    (n : Z) (t : signature) :
  NoDup (map snd h) ->
  (n, t) ∈ histogram_add s h ->
  (t <> s /\ (n, t) ∈ h) \/
  (t = s /\ ((n - 1, t) ∈ h \/ (n = 1 /\ s ∉ map snd h))).
Proof.
  induction h as [|[m u] h IH]; simpl; intros Hnd Hin.
  - apply list_elem_of_singleton in Hin. injection Hin as -> ->.
    right. split; [reflexivity |]. right. split; [reflexivity |].
    apply not_elem_of_nil.
  - apply NoDup_cons in Hnd as [Hu Hnd].
    destruct (signature_eqb u s) eqn:E.
    + apply signature_eqb_eq in E. subst u.
      apply elem_of_cons in Hin as [Hhd | Htl].
      * injection Hhd as -> ->. right. split; [reflexivity |]. left.
        replace (m + 1 - 1) with m by lia. apply list_elem_of_here.
      * destruct (decide (t = s)) as [-> | Hne].
        -- exfalso. apply Hu.
           apply (list_elem_of_fmap_2 snd) in Htl. exact Htl.
        -- left. split; [exact Hne |]. now apply list_elem_of_further.
    + assert (Hne : u <> s).
      { intros ->. rewrite signature_eqb_refl in E. discriminate. }
      apply elem_of_cons in Hin as [Hhd | Htl].
      * injection Hhd as -> ->. left. split; [exact Hne |].
        apply list_elem_of_here.
      * destruct (IH Hnd Htl) as [[Hts Hin] | [-> [Hin | [-> Hout]]]].
        -- left. split; [exact Hts |]. now apply list_elem_of_further.
        -- right. split; [reflexivity |]. left.
           now apply list_elem_of_further.
        -- right. split; [reflexivity |]. right. split; [reflexivity |].
           intros Hin. apply elem_of_cons in Hin as [-> | Hin];
             contradiction.
Qed.

Lemma occurrences_snoc (s : signature) (its : list item) (it : item) :
  occurrences s (its ++ [it])
  = occurrences s its + (if signature_eqb s (shards it) then 1 else 0).
Proof.
  unfold occurrences. rewrite List.filter_app, length_app. simpl.
  destruct (signature_eqb s (shards it)); simpl; lia.
Qed.

Lemma occurrences_absent (s : signature) (its : list item) :
  s ∉ map shards its -> occurrences s its = 0.
Proof.
  unfold occurrences. induction its as [|it its IH]; simpl; intros H;
    [reflexivity |].
  rewrite not_elem_of_cons in H. destruct H as [Hne Hrest].
  rewrite signature_eqb_neq by exact Hne. apply IH. exact Hrest.
Qed.

Lemma histogram_of_counts (its : list item) :
  forall (n : Z) (s : signature),
    (n, s) ∈ histogram_of its -> n = occurrences s its.
Proof.
  induction its as [|it its IH] using rev_ind; intros n s Hin.
  - apply elem_of_nil in Hin. contradiction.
  - rewrite histogram_of_snoc in Hin. rewrite occurrences_snoc.
    apply elem_of_histogram_add in Hin;
      [| rewrite histogram_of_keys; apply NoDup_first_seen].
    destruct Hin as [[Hne Hin] | [-> [Hin | [-> Hout]]]].
    + rewrite signature_eqb_neq by exact Hne.
      rewrite (IH n s Hin). lia.
    + rewrite signature_eqb_refl. rewrite <- (IH _ _ Hin). lia.
    + rewrite signature_eqb_refl.
      rewrite histogram_of_keys, elem_of_first_seen in Hout.
      rewrite (occurrences_absent _ _ Hout). reflexivity.
Qed.

Lemma histogram_of_sum (its : list item) :
  sum_counts (histogram_of its) = Z.of_nat (length its).
Proof.
  induction its as [|it its IH] using rev_ind; [reflexivity |].
  rewrite histogram_of_snoc, sum_counts_add, IH, length_app. simpl. lia.
Qed.

(** C6: with the detailed breakdown enabled, a response with the error
    flag set and its items gets a shard histogram; the signatures of its
    entries are the distinct (total, successful, failed) tuples of the
    items, each once, in the order of their first occurrence in the item
    sequence; the count of an entry is the number of items with exactly
    that tuple; and the counts add up to the number of items. *)
Theorem shard_histogram_first_seen (resp : response) (req : BulkRequest)
    (its : list item) :
  detailed_results req = true ->
  errors resp = true ->
  items resp = Some its ->
  exists out h,
    aggregate resp req = Returned out /\
    shards_histogram out = Some h /\
    map snd h = first_seen (map shards its) /\
    NoDup (map snd h) /\
    (forall s, s ∈ map snd h <-> s ∈ map shards its) /\
    (forall n s, (n, s) ∈ h -> n = occurrences s its) /\
    sum_counts h = Z.of_nat (length its).
Proof.
  intros Hd He Hi. unfold aggregate. rewrite He, Hi, Hd. simpl.
  eexists. eexists. split; [reflexivity |]. simpl.
  split; [reflexivity |]. rewrite scan_hist.
  split; [apply histogram_of_keys |].
  split; [rewrite histogram_of_keys; apply NoDup_first_seen |].
  split; [intros s; rewrite histogram_of_keys; apply elem_of_first_seen |].
  split; [apply histogram_of_counts | apply histogram_of_sum].
Qed.

Lemma shard_histogram_first_seen_witness :
  exists out h,
    aggregate (mkResponse true (Some items_mixed_detailed))
              request_mixed_detailed = Returned out /\
    shards_histogram out = Some h /\
    map snd h = first_seen (map shards items_mixed_detailed) /\
    NoDup (map snd h) /\
    (forall s, s ∈ map snd h <-> s ∈ map shards items_mixed_detailed) /\
    (forall n s, (n, s) ∈ h -> n = occurrences s items_mixed_detailed) /\
    sum_counts h = Z.of_nat (length items_mixed_detailed).
Proof.
  apply (shard_histogram_first_seen
           (mkResponse true (Some items_mixed_detailed))
           request_mixed_detailed items_mixed_detailed); reflexivity.
Defined.

(** What [test_mixed_bulk_with_detailed_stats] expects. *)
Example mixed_bulk_with_detailed_stats :
  aggregate (mkResponse true (Some items_mixed_detailed))
            request_mixed_detailed
  = Returned
      (mkBulkOutcome 6 "docs" false 3 (Some "test")
         (Some [ ("index", mkOpStats 4 [("created", 2); ("noop", 2)]);
                 ("update", mkOpStats 2 [("updated", 1); ("noop", 1)]) ])
         (Some [ (3, (2, 1, 0)); (2, (2, 0, 2)); (1, (2, 1, 1)) ])).
Proof. reflexivity. Qed.

(** What [test_bulk_index_error] expects. *)
Example bulk_index_error :
  aggregate (mkResponse true (Some items_index_error)) request_index_error
  = Returned (mkBulkOutcome 3 "docs" false 2 (Some "test") None None).
Proof. reflexivity. Qed.

End BulkFacts.

(** * Further properties *)

(** ** More on the optimal selector *)

Lemma earliest_minimum_elem_of (cands : list Result) (r : Result) :
  earliest_minimum cands r -> r ∈ cands.
Proof. intros (i & Hi & _). eapply list_elem_of_lookup_2. exact Hi. Qed.

Lemma elem_of_get_successful_results (results : list Result) (allowed : Q)
    (r : Result) :
  r ∈ get_successful_results results allowed <->
  r ∈ results /\ passes allowed r = true.
Proof.
  rewrite get_successful_results_filter, !list_elem_of_In. apply filter_In.
Qed.

(** X1: whatever [select_optimal] returns is one of the given results, has
    [success] true and an error rate within the allowed one, and took less
    than [sys.maxsize] seconds: a result that fails the filter is never
    selected, however fast it is. *)
Theorem select_optimal_sound (results : list Result) (allowed : Q)
    (r : Result) :
  select_optimal results allowed = Some r ->
  r ∈ results /\ success r = true /\ (error_rate r <= allowed)%Q /\
  total_time r < sys_maxsize.
Proof.
  unfold select_optimal. intros Hsel.
  destruct (find_optimal_result_cases
              (get_successful_results results allowed))
    as [[_ Hnone] | (r' & Hsome & Hlt & Hmin)]; [congruence |].
  assert (r' = r) by congruence. subst r'.
  apply earliest_minimum_elem_of, elem_of_get_successful_results in Hmin.
  destruct Hmin as [Hin Hpass]. apply passes_iff in Hpass. tauto.
Qed.

Lemma select_optimal_sound_witness :
  slow_clean_result ∈ [fast_faulty_result; slow_clean_result] /\
  success slow_clean_result = true /\
  (error_rate slow_clean_result <= 1 # 100)%Q /\
  total_time slow_clean_result < sys_maxsize.
Proof.
  apply (select_optimal_sound [fast_faulty_result; slow_clean_result]
                              (1 # 100)%Q slow_clean_result).
  reflexivity.
Defined.

(** X2: a result that fails the filter, wherever it stands in the list,
    does not change the selection. *)
Theorem select_optimal_ignores_rejected (l1 l2 : list Result) (r : Result)
    (allowed : Q) :
  passes allowed r = false ->
  select_optimal (l1 ++ r :: l2) allowed = select_optimal (l1 ++ l2) allowed.
Proof.
  intros Hrej. unfold select_optimal.
  rewrite !get_successful_results_filter, !List.filter_app. simpl.
  now rewrite Hrej.
Qed.

Lemma select_optimal_ignores_rejected_witness :
  select_optimal ([slow_clean_result] ++ failed_result :: [fast_faulty_result])
                 (5 # 100)%Q
  = select_optimal ([slow_clean_result] ++ [fast_faulty_result]) (5 # 100)%Q.
Proof.
  apply (select_optimal_ignores_rejected [slow_clean_result]
           [fast_faulty_result] failed_result (5 # 100)%Q).
  reflexivity.
Defined.

Lemma passes_weaken (a b : Q) (r : Result) :
  (a <= b)%Q -> passes a r = true -> passes b r = true.
Proof.
  intros Hab. rewrite !passes_iff. intros [Hs Hr]. split; [exact Hs |].
  eapply Qle_trans; eassumption.
Qed.

(** X3: filtering in stages: with [a <= b], filtering at [b] and then at [a]
    gives what filtering at [a] gives at once; for [a = b] the filter is
    idempotent. *)
Theorem get_successful_results_staged (results : list Result) (a b : Q) :
  (a <= b)%Q ->
  get_successful_results (get_successful_results results b) a
  = get_successful_results results a.
Proof.
  intros Hab. rewrite !get_successful_results_filter.
  induction results as [|r results IH]; simpl; [reflexivity |].
  destruct (passes b r) eqn:Hb; simpl.
  - rewrite IH. reflexivity.
  - rewrite IH. destruct (passes a r) eqn:Ha; [| reflexivity].
    rewrite (passes_weaken a b r Hab Ha) in Hb. discriminate.
Qed.

Lemma get_successful_results_staged_witness :
  get_successful_results
    (get_successful_results
       [fast_faulty_result; failed_result; slow_clean_result] (5 # 100)%Q)
    (1 # 100)%Q
  = get_successful_results
      [fast_faulty_result; failed_result; slow_clean_result] (1 # 100)%Q.
Proof.
  apply (get_successful_results_staged
           [fast_faulty_result; failed_result; slow_clean_result]
           (1 # 100)%Q (5 # 100)%Q).
  vm_compute. discriminate.
Defined.

(** The running minimum never goes up. *)
Lemma find_optimal_loop_le (l : list Result) :
  forall (t : Z) (o : option Result), fst (find_optimal_loop (t, o) l) <= t.
Proof.
  induction l as [|a l IH]; intros t o; [simpl; lia |].
  rewrite find_optimal_loop_cons.
  destruct (Z.ltb_spec (total_time a) t).
  - specialize (IH (total_time a) (Some a)). lia.
  - apply IH.
Qed.

(** Starting the loop from a lower minimum: the run from the sentinel
    decides, unless it does not get below that minimum. *)
Lemma find_optimal_loop_from (l : list Result) :
  forall (t : Z) (o : option Result),
    t <= sys_maxsize ->
    find_optimal_loop (t, o) l
    = (if fst (find_optimal_loop (sys_maxsize, None) l) <? t
       then find_optimal_loop (sys_maxsize, None) l
       else (t, o)).
Proof.
  induction l as [|a l IH]; intros t o Ht.
  - simpl. destruct (Z.ltb_spec sys_maxsize t); [lia | reflexivity].
  - rewrite !find_optimal_loop_cons.
    destruct (Z.ltb_spec (total_time a) t) as [Hlt | Hge].
    + destruct (Z.ltb_spec (total_time a) sys_maxsize); [| lia].
      pose proof (find_optimal_loop_le l (total_time a) (Some a)).
      destruct (Z.ltb_spec (fst (find_optimal_loop (total_time a, Some a) l))
                           t); [reflexivity | lia].
    + rewrite (IH t o Ht).
      destruct (Z.ltb_spec (total_time a) sys_maxsize) as [Hlt | Hge'];
        [| reflexivity].
      rewrite (IH (total_time a) (Some a)) by lia.
      destruct (Z.ltb_spec (fst (find_optimal_loop (sys_maxsize, None) l))
                           (total_time a)) as [H1 | H1].
      * reflexivity.
      * simpl.
        destruct (Z.ltb_spec (fst (find_optimal_loop (sys_maxsize, None) l))
                             t); [lia |].
        destruct (Z.ltb_spec (total_time a) t); [lia | reflexivity].
Qed.

(** The two components of the final loop state agree. *)
Lemma find_optimal_loop_state (l : list Result) :
  find_optimal_loop (sys_maxsize, None) l
  = match find_optimal_result l with
    | Some r => (total_time r, Some r)
    | None => (sys_maxsize, None)
    end.
Proof.
  unfold find_optimal_result.
  destruct (find_optimal_loop_spec l sys_maxsize None)
    as [[_ Heq] | (r & Heq & _)]; rewrite Heq; reflexivity.
Qed.

(** X4: the optimum of a concatenation is the better of the two optima,
    the first one on a tie: the scan can be split at any place. *)
Theorem find_optimal_result_app (l1 l2 : list Result) :
  find_optimal_result (l1 ++ l2)
  = match find_optimal_result l1, find_optimal_result l2 with
    | Some r1, Some r2 =>
        if total_time r2 <? total_time r1 then Some r2 else Some r1
    | Some r1, None => Some r1
    | None, o2 => o2
    end.
Proof.
  unfold find_optimal_result at 1. unfold find_optimal_loop.
  rewrite fold_left_app. fold (find_optimal_loop (sys_maxsize, None) l1).
  rewrite (find_optimal_loop_state l1).
  destruct (find_optimal_result_cases l1)
    as [[_ H1] | (r1 & H1 & Hlt1 & _)]; rewrite H1.
  - reflexivity.
  - fold (find_optimal_loop (total_time r1, Some r1) l2).
    rewrite find_optimal_loop_from by lia.
    rewrite (find_optimal_loop_state l2).
    destruct (find_optimal_result_cases l2)
      as [[_ H2] | (r2 & H2 & Hlt2 & _)]; rewrite H2; simpl.
    + destruct (Z.ltb_spec sys_maxsize (total_time r1)); [lia | reflexivity].
    + destruct (total_time r2 <? total_time r1); reflexivity.
Qed.

(** X5: the total time of the optimum does not depend on the order of the
    results; only which of several equally fast results is returned does. *)
Theorem find_optimal_result_time_permutation (l l' : list Result) :
  l ≡ₚ l' ->
  total_time <$> find_optimal_result l = total_time <$> find_optimal_result l'.
Proof.
  intros Hperm.
  assert (Hmin : forall (c : list Result) r x,
             earliest_minimum c r -> x ∈ c -> total_time r <= total_time x).
  { intros c r x (i & _ & _ & Hle) Hx.
    apply list_elem_of_lookup_1 in Hx as [j Hj]. eapply Hle. exact Hj. }
  destruct (find_optimal_result_cases l)
    as [[Hall Hnone] | (r & Hsome & Hlt & Hr)];
  destruct (find_optimal_result_cases l')
    as [[Hall' Hnone'] | (r' & Hsome' & Hlt' & Hr')].
  - now rewrite Hnone, Hnone'.
  - exfalso. rewrite Forall_forall in Hall.
    assert (r' ∈ l) by (rewrite Hperm; now apply earliest_minimum_elem_of).
    specialize (Hall r' H). lia.
  - exfalso. rewrite Forall_forall in Hall'.
    assert (r ∈ l') by (rewrite <- Hperm; now apply earliest_minimum_elem_of).
    specialize (Hall' r H). lia.
  - rewrite Hsome, Hsome'. simpl. f_equal.
    assert (r' ∈ l) by (rewrite Hperm; now apply earliest_minimum_elem_of).
    assert (r ∈ l') by (rewrite <- Hperm; now apply earliest_minimum_elem_of).
    pose proof (Hmin l r r' Hr H). pose proof (Hmin l' r' r Hr' H0). lia.
Qed.

Lemma find_optimal_result_time_permutation_witness :
  total_time <$> find_optimal_result [slow_clean_result; fast_faulty_result]
  = total_time <$> find_optimal_result [fast_faulty_result; slow_clean_result].
Proof.
  apply (find_optimal_result_time_permutation
           [slow_clean_result; fast_faulty_result]
           [fast_faulty_result; slow_clean_result]).
  apply perm_swap.
Defined.

(** ** The command line *)

Lemma build_commands_from (params : list (string * option string))
    (acc0 : list string) :
  fold_left
    (fun commands kv =>
       let commands := commands ++ [fst kv] in
       match snd kv with
       | Some v => if truthy (Some v) then commands ++ [v] else commands
       | None => commands
       end)
    params acc0
  = acc0 ++ flat_map flag_words params.
Proof.
  revert acc0. induction params as [|[k v] params IH]; intros acc0; simpl.
  - now rewrite app_nil_r.
  - rewrite IH. unfold flag_words. simpl.
    destruct v as [v|]; [destruct (negb (String.eqb v "")) |];
      simpl; rewrite <- ?app_assoc; reflexivity.
Qed.

(** X6: the command line is the executable and its subcommand followed, in
    the order of the mapping, by each flag name and then its value; a value
    that is [None] or the empty string is left out, so a flag gives one word
    or two. *)
Theorem build_commands_flat (params : list (string * option string)) :
  build_commands params
  = ["opensearch-benchmark"; "execute-test"] ++ flat_map flag_words params /\
  (2 + length params <= length (build_commands params)
   <= 2 + 2 * length params)%nat.
Proof.
  unfold build_commands. rewrite build_commands_from.
  split; [reflexivity |].
  rewrite length_app. simpl.
  induction params as [|[k v] params IH]; simpl; [lia |].
  rewrite length_app.
  destruct v as [v|]; [destruct (negb (String.eqb v "")) |]; simpl; lia.
Qed.

Lemma truthy_nonempty (s : string) : s <> "" -> truthy (Some s) = true.
Proof.
  intros H. simpl. apply negb_true_iff, String.eqb_neq. exact H.
Qed.

Lemma get_workload_params_nonempty (env : Env) (batch bulk client : Z) :
  get_workload_params env batch bulk client <> "".
Proof. unfold get_workload_params. simpl. discriminate. Qed.

Lemma get_workload_params_eq (env : Env) (batch bulk client : Z) :
  get_workload_params env batch bulk client
  = "bulk_size:" +:+ pretty bulk +:+ ",batch_size:" +:+ pretty batch
      +:+ ",bulk_indexing_clients:" +:+ pretty client
      +:+ ",index_name:" +:+ timestamp env +:+ "_" +:+ uuid4 env.
Proof.
  unfold get_workload_params, generate_random_index_name. simpl.
  reflexivity.
Qed.

(** X7: the command the executor runs.  With a non-empty target host
    string, workload path and report path, the words are as follows; the
    client options appear exactly when they are given and non-empty, and the
    flag [--kill-running-processes] stands alone. *)
Theorem benchmark_command_line (env : Env) (args : Args)
    (batch bulk client : Z) (filename : string) :
  target_hosts args <> "" ->
  workload_path args <> "" ->
  filename <> "" ->
  build_commands (get_benchmark_params env args batch bulk client filename)
  = [ "opensearch-benchmark"; "execute-test";
      "--target-hosts"; target_hosts args ]
    ++ match client_options args with
       | Some o => if String.eqb o "" then [] else ["--client-options"; o]
       | None => []
       end
    ++ [ "--kill-running-processes";
         "--pipeline"; "benchmark-only";
         "--telemetry"; "node-stats";
         "--telemetry-params";
         "node-stats-include-indices:true,node-stats-sample-interval:10,node-stats-include-mem:true,node-stats-include-process:true";
         "--workload-path"; workload_path args;
         "--workload-params";
         "bulk_size:" +:+ pretty bulk +:+ ",batch_size:" +:+ pretty batch
           +:+ ",bulk_indexing_clients:" +:+ pretty client
           +:+ ",index_name:" +:+ timestamp env +:+ "_" +:+ uuid4 env;
         "--results-format"; "csv";
         "--results-file"; filename ].
Proof.
  intros Hth Hwp Hf.
  unfold build_commands. rewrite build_commands_from.
  unfold get_benchmark_params. rewrite !flat_map_app.
  unfold flag_words at 1 3. cbn [flat_map fst snd app].
  rewrite !truthy_nonempty
    by (auto using get_workload_params_nonempty; discriminate).
  rewrite get_workload_params_eq.
  destruct (client_options args) as [o|];
    [destruct (String.eqb o "") eqn:E |];
    unfold truthy, flag_words; rewrite ?E; simpl; rewrite ?E; reflexivity.
Qed.

Lemma benchmark_command_line_witness :
  build_commands
    (get_benchmark_params (sample_env failing_run) sample_args 1 100 4
                          "/tmp/tmpk3v9")
  = [ "opensearch-benchmark"; "execute-test";
      "--target-hosts"; "localhost:9200";
      "--kill-running-processes";
      "--pipeline"; "benchmark-only";
      "--telemetry"; "node-stats";
      "--telemetry-params";
      "node-stats-include-indices:true,node-stats-sample-interval:10,node-stats-include-mem:true,node-stats-include-process:true";
      "--workload-path"; "/workloads/nyc";
      "--workload-params";
      "bulk_size:100,batch_size:1,bulk_indexing_clients:4,index_name:1730700000.5_0b1e";
      "--results-format"; "csv";
      "--results-file"; "/tmp/tmpk3v9" ].
Proof.
  apply (benchmark_command_line (sample_env failing_run) sample_args 1 100 4
                                "/tmp/tmpk3v9"); discriminate.
Defined.

(** ** The runner and the executor, path by path *)

Lemma decode_encode (bs : list Byte.byte) :
  String.list_byte_of_string
    (String.string_of_list_ascii (map Ascii.ascii_of_byte bs)) = bs.
Proof.
  unfold String.list_byte_of_string.
  rewrite String.list_ascii_of_string_of_list_ascii, List.map_map.
  induction bs as [|b bs IH]; simpl; [reflexivity |].
  now rewrite Ascii.byte_of_ascii_of_byte, IH.
Qed.

Lemma new_events_app (w w' : World) (evs : list event) :
  trace w' = trace w ++ evs -> new_events w w' = evs.
Proof.
  intros H. unfold new_events. rewrite H.
  rewrite skipn_app, skipn_all, Nat.sub_diag. reflexivity.
Qed.

Lemma remove_if_exists_eq (filename : string) (w : World) :
  remove_if_exists filename w
  = (Returned tt,
     match files w !! filename with
     | Some _ => mkWorld (delete filename (files w)) (child w) (now w)
                         (trace w ++ [EvRemove filename])
     | None => w
     end).
Proof.
  unfold remove_if_exists, mbind, M_bind, os_path_exists, os_remove.
  destruct (files w !! filename) as [rows|] eqn:E.
  - rewrite bool_decide_eq_true_2 by eauto. now rewrite E.
  - rewrite bool_decide_eq_false_2 by (intros [? ?]; discriminate).
    reflexivity.
Qed.

(** X8: [run_benchmark] returns only when the child exited and its stderr
    is ASCII.  It then reports success exactly for exit status zero, hands
    back a text whose bytes are the captured stderr, has collected the exit
    status, and has made two calls, [Popen] and [communicate]: no
    [terminate], no console output. *)
Theorem run_benchmark_returned (r : child_run)
    (params : list (string * option string)) (w w' : World) (ok : bool)
    (text : string) :
  run_benchmark r params w = (Returned (ok, text), w') ->
  exists d effect rc stderr,
    r = RunExits d effect rc stderr /\
    is_ascii stderr = true /\
    ok = (rc =? 0) /\
    String.list_byte_of_string text = stderr /\
    child w' = Reaped rc /\
    files w' = effect (files w) /\
    new_events w w' = [EvPopen (build_commands params); EvCommunicate].
Proof.
  destruct r as [| d effect rc stderr | d effect].
  - discriminate.
  - rewrite run_benchmark_exits.
    destruct (is_ascii stderr) eqn:Hascii; [| discriminate].
    intros [= <- <- <-]. exists d, effect, rc, stderr. simpl.
    repeat split; auto using decode_encode.
    apply new_events_app. simpl. now rewrite <- app_assoc.
  - rewrite run_benchmark_interrupted. discriminate.
Qed.

Lemma run_benchmark_returned_witness :
  exists d effect rc stderr,
    failing_run = RunExits d effect rc stderr /\
    is_ascii stderr = true /\
    false = (rc =? 0) /\
    String.list_byte_of_string "oops" = stderr /\
    child (snd (run_benchmark failing_run [] initial_world)) = Reaped rc /\
    files (snd (run_benchmark failing_run [] initial_world))
      = effect (files initial_world) /\
    new_events initial_world (snd (run_benchmark failing_run [] initial_world))
      = [EvPopen (build_commands []); EvCommunicate].
Proof.
  apply (run_benchmark_returned failing_run [] initial_world
           (snd (run_benchmark failing_run [] initial_world)) false "oops").
  reflexivity.
Defined.

Section SweepPointPaths.

Variable error_rate_of : option (gmap string (gmap string string)) -> Q.

(** Every way the executor can end when the child exits. *)
Lemma run_exits_table (env : Env) (args : Args)
    (test_id batch bulk client : Z) (w : World) (d : Q) effect (rc : Z)
    (stderr : list Byte.byte) :
  run env = RunExits d effect rc stderr ->
  let fs := effect (<[temp_name env := []]> (files w)) in
  let tr := ((trace w ++
              [EvConsoleInfo
                 ("Running benchmark with: bulk size: " +:+ pretty bulk +:+
                  ", number of clients: " +:+ pretty client +:+
                  ", batch size: " +:+ pretty batch)])
             ++ [EvPopen (build_commands
                            (get_benchmark_params env args batch bulk client
                                                  (temp_name env)))])
            ++ [EvCommunicate] in
  let result := new_Result error_rate_of test_id batch bulk client in
  let text := String.string_of_list_ascii (map Ascii.ascii_of_byte stderr) in
  let cleaned (tr' : list event) :=
    match fs !! temp_name env with
    | Some _ => mkWorld (delete (temp_name env) fs) (Reaped rc) (now w + d)%Q
                        (tr' ++ [EvRemove (temp_name env)])
    | None => mkWorld fs (Reaped rc) (now w + d)%Q tr'
    end in
  run_batch_bulk_client_tests error_rate_of env args test_id batch bulk
                              client w
  = if is_ascii stderr then
      if rc =? 0 then
        match fs !! temp_name env with
        | None => (Raised FileNotFoundError,
                   mkWorld fs (Reaped rc) (now w + d)%Q tr)
        | Some rows =>
            match build_output rows (int_of_float d) with
            | Raised e => (Raised e, mkWorld fs (Reaped rc) (now w + d)%Q tr)
            | Returned output =>
                (Returned (set_output error_rate_of result true
                                      (int_of_float d) (Some output)),
                 cleaned tr)
            end
        end
      else
        (Returned (set_output error_rate_of result false (int_of_float d)
                              None),
         cleaned (tr ++ [EvLogError (Some text)]))
    else
      (Raised UnicodeDecodeError,
       mkWorld fs (Reaped rc) (now w + d)%Q (tr ++ [EvLogError None])).
Proof.
  intros Hrun. cbv zeta.
  rewrite run_batch_bulk_client_tests_unfold.
  unfold try_finally.
  rewrite Hrun, run_benchmark_exits.
  destruct (is_ascii stderr).
  - destruct (rc =? 0) eqn:Hrc.
    + rewrite record_run_succeeded. cbn [now files child trace snd].
      rewrite (int_of_float_proper (now w + d - now w)%Q d) by ring.
      destruct (effect (<[temp_name env := []]> (files w)) !! temp_name env)
        as [rows|] eqn:Hrows; [| reflexivity].
      destruct (build_output rows (int_of_float d)); [| reflexivity].
      rewrite remove_if_exists_eq. cbn [now files child trace snd].
      rewrite Hrows. reflexivity.
    + rewrite record_run_failed by reflexivity.
      cbn [now files child trace snd fst].
      rewrite (int_of_float_proper (now w + d - now w)%Q d) by ring.
      rewrite remove_if_exists_eq. cbn [now files child trace snd].
      destruct (effect (<[temp_name env := []]> (files w)) !! temp_name env);
        reflexivity.
  - rewrite record_run_failed by reflexivity.
    cbn [now files child trace snd]. reflexivity.
Qed.

Lemma run_spawn_interrupted_eq (env : Env) (args : Args)
    (test_id batch bulk client : Z) (w : World) :
  run env = SpawnInterrupted ->
  run_batch_bulk_client_tests error_rate_of env args test_id batch bulk
                              client w
  = (Raised AttributeError,
     mkWorld (<[temp_name env := []]> (files w)) NoProcess (now w)
       ((trace w ++
         [EvConsoleInfo
            ("Running benchmark with: bulk size: " +:+ pretty bulk +:+
             ", number of clients: " +:+ pretty client +:+
             ", batch size: " +:+ pretty batch)])
        ++ [EvLogError None])).
Proof.
  intros Hrun. rewrite run_batch_bulk_client_tests_unfold.
  unfold try_finally. rewrite Hrun.
  unfold run_benchmark, try_except_interrupt, mbind, M_bind, clear_proc,
    Popen, terminate. cbn [child].
  rewrite record_run_failed by reflexivity. reflexivity.
Qed.

Lemma run_interrupted_eq (env : Env) (args : Args)
    (test_id batch bulk client : Z) (w : World) (d : Q) effect :
  run env = RunInterrupted d effect ->
  run_batch_bulk_client_tests error_rate_of env args test_id batch bulk
                              client w
  = (Raised KeyboardInterrupt,
     mkWorld (effect (<[temp_name env := []]> (files w))) Signalled
       (now w + d)%Q
       ((((((trace w ++
             [EvConsoleInfo
                ("Running benchmark with: bulk size: " +:+ pretty bulk +:+
                 ", number of clients: " +:+ pretty client +:+
                 ", batch size: " +:+ pretty batch)])
            ++ [EvPopen (build_commands
                           (get_benchmark_params env args batch bulk client
                                                 (temp_name env)))])
           ++ [EvCommunicate]) ++ [EvTerminate])
         ++ [EvConsoleInfo "Process is terminated!"])
        ++ [EvLogError None])).
Proof.
  intros Hrun. rewrite run_batch_bulk_client_tests_unfold.
  unfold try_finally. rewrite Hrun, run_benchmark_interrupted.
  rewrite record_run_failed by reflexivity. reflexivity.
Qed.

End SweepPointPaths.

(** ** The report and the metrics mapping *)


Lemma read_metrics_KeyError (rows : list (gmap string string)) :
  Exists (fun row => row !! METRIC_KEY = None) rows ->
  forall output : gmap string (gmap string string),
    read_metrics rows output = Raised KeyError.
Proof.
  induction 1 as [row rest Hrow | row rest Hex IH]; intros output; simpl.
  - now rewrite Hrow.
  - destruct (row !! METRIC_KEY); [apply IH | reflexivity].
Qed.

Lemma build_output_KeyError (rows : list (gmap string string))
    (total_time : Z) :
  Exists (fun row => row !! METRIC_KEY = None) rows ->
  build_output rows total_time = Raised KeyError.
Proof.
  intros Hex. unfold build_output.
  now rewrite (read_metrics_KeyError rows Hex).
Qed.

Lemma build_output_total (rows : list (gmap string string))
    (total_time : Z) :
  Forall (fun row => is_Some (row !! METRIC_KEY)) rows ->
  exists output, build_output rows total_time = Returned output.
Proof.
  intros Hall. unfold build_output.
  destruct (read_metrics_total rows ∅ Hall) as (m & ->). eauto.
Qed.


(** The entries of the mapping, once it is built. *)
Lemma build_output_entries (rows : list (gmap string string))
    (total_time : Z) (output : gmap string (gmap string string)) :
  build_output rows total_time = Returned output ->
  output !! TOTAL_TIME_KEY = Some (total_time_row total_time) /\
  (forall name, name <> TOTAL_TIME_KEY ->
                output !! name = last_row_named name rows).
Proof.
  unfold build_output. intros Hbuild.
  destruct (read_metrics rows ∅) as [m|e] eqn:Hread; [| discriminate].
  injection Hbuild as <-. split; [apply lookup_insert_eq |].
  intros name Hne. rewrite lookup_insert_ne by congruence.
  rewrite (read_metrics_lookup rows ∅ m Hread name).
  destruct (last_row_named name rows); [reflexivity | apply lookup_empty].
Qed.

Lemma last_row_named_is_Some (name : string)
    (rows : list (gmap string string)) :
  is_Some (last_row_named name rows) <->
  exists row, row ∈ rows /\ row !! METRIC_KEY = Some name.
Proof.
  split.
  - intros [r Hr]. destruct (last_row_named_Some name rows r Hr) as (k & Hk & Hm).
    exists r. split; [eapply list_elem_of_lookup_2; exact Hk | exact Hm].
  - intros (row & Hin & Hm).
    apply list_elem_of_lookup_1 in Hin as [j Hj].
    destruct (last_row_named_ge name rows j row Hj Hm)
      as (k & rk & _ & _ & _ & Hlast).
    rewrite Hlast. eauto.
Qed.

Lemma map_size_insert_le (k : string) (v : gmap string string)
    (m : gmap string (gmap string string)) :
  (size (<[k := v]> m) <= S (size m))%nat.
Proof. rewrite map_size_insert. destruct (m !! k); unfold id; lia. Qed.

Lemma read_metrics_size (rows : list (gmap string string)) :
  forall output m : gmap string (gmap string string),
    read_metrics rows output = Returned m ->
    (size m <= size output + length rows)%nat.
Proof.
  induction rows as [|row rest IH]; intros output m H; simpl in H.
  - injection H as <-. lia.
  - destruct (row !! METRIC_KEY) as [name|]; [| discriminate].
    apply IH in H. pose proof (map_size_insert_le name row output).
    simpl. lia.
Qed.

(** X10: the keys of the mapping are "Total time" and the metric names that
    occur in the report, nothing else; so it has at most one entry more
    than the report has rows. *)
Theorem build_output_keys (rows : list (gmap string string))
    (total_time : Z) (output : gmap string (gmap string string)) :
  build_output rows total_time = Returned output ->
  (forall name,
     is_Some (output !! name) <->
     name = TOTAL_TIME_KEY \/
     exists row, row ∈ rows /\ row !! METRIC_KEY = Some name) /\
  (size output <= S (length rows))%nat.
Proof.
  intros Hbuild.
  destruct (build_output_entries rows total_time output Hbuild)
    as [Htotal Hother].
  assert (Hkeys : forall name,
     is_Some (output !! name) <->
     name = TOTAL_TIME_KEY \/
     exists row, row ∈ rows /\ row !! METRIC_KEY = Some name).
  { intros name. destruct (decide (name = TOTAL_TIME_KEY)) as [-> | Hne].
    - rewrite Htotal. split; [auto | eauto].
    - rewrite (Hother name Hne), last_row_named_is_Some. tauto. }
  split; [exact Hkeys |].
  unfold build_output in Hbuild.
  destruct (read_metrics rows ∅) as [m|e] eqn:Hread; [| discriminate].
  injection Hbuild as <-.
  pose proof (read_metrics_size rows ∅ m Hread) as Hsize.
  rewrite map_size_empty in Hsize.
  pose proof (map_size_insert_le TOTAL_TIME_KEY (total_time_row total_time) m).
  lia.
Qed.

Lemma build_output_keys_witness :
  (forall name,
     is_Some (sample_output !! name) <->
     name = TOTAL_TIME_KEY \/
     exists row, row ∈ sample_rows /\ row !! METRIC_KEY = Some name) /\
  (size sample_output <= S (length sample_rows))%nat.
Proof.
  apply (build_output_keys sample_rows 2 sample_output). reflexivity.
Defined.

(** ** The executor: how a sweep point can end *)

(** X11: a child that exits with status zero, prints ASCII and leaves a
    report whose rows all have a "Metric" cell: the executor returns a
    Result with [success] true, the elapsed whole seconds and the mapping
    built from the report, in which "Total time" is the synthetic row for
    that same elapsed time; the report file is removed. *)
Theorem successful_run_is_recorded
    (error_rate_of : option (gmap string (gmap string string)) -> Q)
    (env : Env) (args : Args) (test_id batch bulk client : Z) (w : World)
    (d : Q) effect (stderr : list Byte.byte)
    (rows : list (gmap string string)) :
  run env = RunExits d effect 0 stderr ->
  is_ascii stderr = true ->
  effect (<[temp_name env := []]> (files w)) !! temp_name env = Some rows ->
  Forall (fun row => is_Some (row !! METRIC_KEY)) rows ->
  exists r m w',
    run_batch_bulk_client_tests error_rate_of env args test_id batch bulk
                                client w = (Returned r, w') /\
    success r = true /\
    total_time r = int_of_float d /\
    output r = Some m /\
    build_output rows (int_of_float d) = Returned m /\
    m !! TOTAL_TIME_KEY = Some (total_time_row (total_time r)) /\
    files w' !! temp_name env = None.
Proof.
  intros Hrun Hascii Hrows Hall.
  destruct (build_output_total rows (int_of_float d) Hall) as [m Hm].
  destruct (build_output_entries rows _ m Hm) as [Hkey _].
  rewrite (run_exits_table error_rate_of env args test_id batch bulk client
                           w d effect 0 stderr Hrun).
  rewrite Hascii, Hrows, Hm. simpl.
  eexists _, m, _. split; [reflexivity |]. simpl.
  repeat split; auto. apply lookup_delete_eq.
Qed.

Lemma successful_run_is_recorded_witness :
  exists r m w',
    run_batch_bulk_client_tests no_rate (sample_env succeeding_run)
                                sample_args 1 1 100 4 initial_world
      = (Returned r, w') /\
    success r = true /\
    total_time r = int_of_float (5 # 2) /\
    output r = Some m /\
    build_output sample_rows (int_of_float (5 # 2)) = Returned m /\
    m !! TOTAL_TIME_KEY = Some (total_time_row (total_time r)) /\
    files w' !! "/tmp/tmpk3v9" = None.
Proof.
  apply (successful_run_is_recorded no_rate (sample_env succeeding_run)
           sample_args 1 1 100 4 initial_world (5 # 2)
           (fun fs => <["/tmp/tmpk3v9" := sample_rows]> fs) []).
  - reflexivity.
  - reflexivity.
  - reflexivity.
  - repeat constructor; vm_compute; eauto.
Defined.

(** X12: exit status zero is not enough.  When the report file is gone the
    executor raises [FileNotFoundError]; when a row of the report has no
    "Metric" cell it raises [KeyError] and leaves the report file where it
    is.  In both cases no Result comes back. *)
Theorem unreadable_report_raises
    (error_rate_of : option (gmap string (gmap string string)) -> Q)
    (env : Env) (args : Args) (test_id batch bulk client : Z) (w : World)
    (d : Q) effect (stderr : list Byte.byte) :
  run env = RunExits d effect 0 stderr ->
  is_ascii stderr = true ->
  (effect (<[temp_name env := []]> (files w)) !! temp_name env = None ->
   fst (run_batch_bulk_client_tests error_rate_of env args test_id batch
                                    bulk client w)
   = Raised FileNotFoundError) /\
  (forall rows,
     effect (<[temp_name env := []]> (files w)) !! temp_name env = Some rows ->
     Exists (fun row => row !! METRIC_KEY = None) rows ->
     fst (run_batch_bulk_client_tests error_rate_of env args test_id batch
                                      bulk client w)
     = Raised KeyError /\
     files (snd (run_batch_bulk_client_tests error_rate_of env args test_id
                                              batch bulk client w))
       !! temp_name env = Some rows).
Proof.
  intros Hrun Hascii.
  rewrite (run_exits_table error_rate_of env args test_id batch bulk client
                           w d effect 0 stderr Hrun).
  rewrite Hascii. simpl. split.
  - intros ->. reflexivity.
  - intros rows Hrows Hex. rewrite Hrows.
    rewrite (build_output_KeyError rows (int_of_float d) Hex). simpl. auto.
Qed.

Lemma unreadable_report_raises_witness :
  fst (run_batch_bulk_client_tests no_rate (sample_env run_without_report)
                                   sample_args 1 1 100 4 initial_world)
  = Raised FileNotFoundError /\
  fst (run_batch_bulk_client_tests no_rate (sample_env run_with_bad_report)
                                   sample_args 1 1 100 4 initial_world)
  = Raised KeyError.
Proof.
  split.
  - apply (unreadable_report_raises no_rate (sample_env run_without_report)
             sample_args 1 1 100 4 initial_world (5 # 2)
             (fun fs => delete "/tmp/tmpk3v9" fs) []);
      reflexivity.
  - refine (proj1 (proj2 (unreadable_report_raises no_rate
             (sample_env run_with_bad_report)
             sample_args 1 1 100 4 initial_world (5 # 2)
             (fun fs => <["/tmp/tmpk3v9" := [ <["Value" := "1"]> ∅ ]]> fs)
             [] eq_refl eq_refl) [ <["Value" := "1"]> ∅ ] _ _)).
    + reflexivity.
    + apply Exists_cons_hd. reflexivity.
Defined.

(** X13: a byte outside ASCII on the child's stderr makes the executor raise
    [UnicodeDecodeError] whatever the exit status, zero included; the
    captured text is lost (the logger is handed [None]) and the files are
    left as the child left them, the report file not removed. *)
Theorem non_ascii_stderr_raises
    (error_rate_of : option (gmap string (gmap string string)) -> Q)
    (env : Env) (args : Args) (test_id batch bulk client : Z) (w : World)
    (d : Q) effect (rc : Z) (stderr : list Byte.byte) :
  run env = RunExits d effect rc stderr ->
  is_ascii stderr = false ->
  exists w',
    run_batch_bulk_client_tests error_rate_of env args test_id batch bulk
                                client w = (Raised UnicodeDecodeError, w') /\
    files w' = effect (<[temp_name env := []]> (files w)) /\
    last (trace w') = Some (EvLogError None).
Proof.
  intros Hrun Hascii.
  rewrite (run_exits_table error_rate_of env args test_id batch bulk client
                           w d effect rc stderr Hrun).
  rewrite Hascii. eexists. split; [reflexivity |]. simpl.
  split; [reflexivity | apply last_snoc].
Qed.

Lemma non_ascii_stderr_raises_witness :
  exists w',
    run_batch_bulk_client_tests no_rate (sample_env failing_run_latin1)
                                sample_args 1 1 100 4 initial_world
      = (Raised UnicodeDecodeError, w') /\
    files w' = no_effect (<["/tmp/tmpk3v9" := []]> (files initial_world)) /\
    last (trace w') = Some (EvLogError None).
Proof.
  apply (non_ascii_stderr_raises no_rate (sample_env failing_run_latin1)
           sample_args 1 1 100 4 initial_world (5 # 2) no_effect 1
           [Byte.x63; Byte.x61; Byte.x66; Byte.xe9]); reflexivity.
Defined.

(** X14: an interrupt that arrives before [Popen] has returned is lost:
    [proc] is still [None], the handler fails on [proc.terminate()], and the
    executor raises [AttributeError] in place of [KeyboardInterrupt]; the
    empty file [mkstemp] created stays. *)
Theorem spawn_interrupt_is_masked
    (error_rate_of : option (gmap string (gmap string string)) -> Q)
    (env : Env) (args : Args) (test_id batch bulk client : Z) (w : World) :
  run env = SpawnInterrupted ->
  exists w',
    run_batch_bulk_client_tests error_rate_of env args test_id batch bulk
                                client w = (Raised AttributeError, w') /\
    files w' !! temp_name env = Some [] /\
    ~ In EvTerminate (new_events w w').
Proof.
  intros Hrun.
  rewrite (run_spawn_interrupted_eq error_rate_of env args test_id batch bulk
                                    client w Hrun).
  eexists. split; [reflexivity |]. simpl. split; [apply lookup_insert_eq |].
  erewrite new_events_app by (simpl; rewrite <- app_assoc; reflexivity).
  simpl. intros [H | [H | H]]; [discriminate | discriminate | exact H].
Qed.

Lemma spawn_interrupt_is_masked_witness :
  exists w',
    run_batch_bulk_client_tests no_rate (sample_env SpawnInterrupted)
                                sample_args 1 1 100 4 initial_world
      = (Raised AttributeError, w') /\
    files w' !! "/tmp/tmpk3v9" = Some [] /\
    ~ In EvTerminate (new_events initial_world w').
Proof.
  apply (spawn_interrupt_is_masked no_rate (sample_env SpawnInterrupted)
           sample_args 1 1 100 4 initial_world).
  reflexivity.
Defined.

(** X15: whenever the executor returns a Result, the child has exited with
    ASCII text on stderr and its exit status was collected, the report file
    is gone, the Result carries the test id and the configuration it was
    created with, [success] is true exactly for exit status zero, the total
    time is the elapsed time truncated to whole seconds, and there is a
    metrics mapping exactly on success. *)
Theorem returned_result_invariants
    (error_rate_of : option (gmap string (gmap string string)) -> Q)
    (env : Env) (args : Args) (test_id0 batch bulk client : Z) (w w' : World)
    (r : Result) :
  run_batch_bulk_client_tests error_rate_of env args test_id0 batch bulk
                              client w = (Returned r, w') ->
  files w' !! temp_name env = None /\
  exists d effect rc stderr,
    run env = RunExits d effect rc stderr /\
    is_ascii stderr = true /\
    child w' = Reaped rc /\
    success r = (rc =? 0) /\
    total_time r = int_of_float d /\
    (test_id r, batch_size r, bulk_size r, number_of_client r)
      = (test_id0, batch, bulk, client) /\
    (output r = None <-> rc <> 0).
Proof.
  destruct (run env) as [| d effect rc stderr | d effect] eqn:Hrun.
  - rewrite (run_spawn_interrupted_eq _ _ _ _ _ _ _ _ Hrun). discriminate.
  - rewrite (run_exits_table error_rate_of env args test_id0 batch bulk
                             client w d effect rc stderr Hrun).
    destruct (is_ascii stderr) eqn:Hascii; [| discriminate].
    destruct (Z.eqb_spec rc 0) as [Hrc | Hrc].
    + destruct (effect (<[temp_name env := []]> (files w)) !! temp_name env)
        as [rows|] eqn:Hrows; [| discriminate].
      destruct (build_output rows (int_of_float d)) as [m|e];
        [| discriminate].
      intros [= <- <-]. simpl. split; [apply lookup_delete_eq |].
      exists d, effect, rc, stderr. rewrite Hrc. simpl.
      repeat split; auto; try discriminate. intros H. now contradiction H.
    + intros [= <- <-]. split.
      * destruct (effect (<[temp_name env := []]> (files w))
                    !! temp_name env) eqn:Hrows; simpl;
          [apply lookup_delete_eq | exact Hrows].
      * exists d, effect, rc, stderr.
        destruct (effect (<[temp_name env := []]> (files w))
                    !! temp_name env); simpl; repeat split; auto;
          symmetry; now apply Z.eqb_neq.
  - rewrite (run_interrupted_eq _ _ _ _ _ _ _ _ _ _ Hrun). discriminate.
Qed.

Lemma returned_result_invariants_witness :
  files (snd (run_batch_bulk_client_tests no_rate (sample_env failing_run)
                sample_args 7 1 100 4 initial_world))
    !! "/tmp/tmpk3v9" = None.
Proof.
  apply (proj1 (returned_result_invariants no_rate (sample_env failing_run)
                  sample_args 7 1 100 4 initial_world
                  (snd (run_batch_bulk_client_tests no_rate
                          (sample_env failing_run) sample_args 7 1 100 4
                          initial_world))
                  (mkResult 7 1 100 4 false 2 0%Q None)
                  ltac:(vm_compute; reflexivity))).
Defined.

Ltac new_events_of :=
  erewrite new_events_app
    by (cbn [trace]; rewrite <- ?app_assoc; reflexivity).

Ltac no_such_event :=
  cbn [app In]; intuition (try discriminate; try congruence).

(** X16: what the executor never does.  It calls [terminate()] only when
    the wait for the child was interrupted, and it removes no file but the
    report file, and that only on the way to returning a Result. *)
Theorem executor_calls
    (error_rate_of : option (gmap string (gmap string string)) -> Q)
    (env : Env) (args : Args) (test_id batch bulk client : Z) (w : World) :
  (In EvTerminate
      (new_events w
         (snd (run_batch_bulk_client_tests error_rate_of env args test_id
                                           batch bulk client w))) <->
   exists d effect, run env = RunInterrupted d effect) /\
  (forall p,
     In (EvRemove p)
        (new_events w
           (snd (run_batch_bulk_client_tests error_rate_of env args test_id
                                             batch bulk client w))) ->
     p = temp_name env /\
     exists r, fst (run_batch_bulk_client_tests error_rate_of env args
                      test_id batch bulk client w) = Returned r).
Proof.
  destruct (run env) as [| d effect rc stderr | d effect] eqn:Hrun.
  - rewrite (run_spawn_interrupted_eq _ _ _ _ _ _ _ _ Hrun).
    cbn [fst snd]. new_events_of. split.
    + split; [no_such_event | intros (? & ? & ?); discriminate].
    + intros p. no_such_event.
  - rewrite (run_exits_table error_rate_of env args test_id batch bulk
                             client w d effect rc stderr Hrun).
    assert (Hnot : ~ exists d' effect',
                     RunExits d effect rc stderr = RunInterrupted d' effect')
      by (intros (? & ? & ?); discriminate).
    destruct (is_ascii stderr).
    + destruct (rc =? 0).
      * destruct (effect (<[temp_name env := []]> (files w))
                    !! temp_name env) as [rows|] eqn:Hrows.
        -- destruct (build_output rows (int_of_float d)) as [m|e];
             cbn [fst snd]; new_events_of; (split; [| intros p]);
             no_such_event; eauto.
        -- cbn [fst snd]. new_events_of. (split; [| intros p]);
             no_such_event.
      * destruct (effect (<[temp_name env := []]> (files w))
                    !! temp_name env) as [rows|] eqn:Hrows;
          cbn [fst snd]; new_events_of; (split; [| intros p]);
          no_such_event; eauto.
    + cbn [fst snd]. new_events_of. (split; [| intros p]); no_such_event.
  - rewrite (run_interrupted_eq _ _ _ _ _ _ _ _ _ _ Hrun).
    cbn [fst snd]. new_events_of. split.
    + split; [eauto | intros _; cbn [app In]; auto 10].
    + intros p. no_such_event.
Qed.

(** ** The elapsed time *)

(** X17: [int(...)] truncates towards zero.  For a non-negative reading it
    is the whole number of seconds below it, so the recorded total time is
    never negative and never more than the elapsed time, and misses it by
    less than one second; a negative reading gives the opposite of what its
    absolute value gives. *)
Theorem int_of_float_truncates (x : Q) :
  ((0 <= x)%Q ->
   0 <= int_of_float x /\
   (inject_Z (int_of_float x) <= x)%Q /\
   (x < inject_Z (int_of_float x + 1))%Q) /\
  int_of_float (- x) = - int_of_float x.
Proof.
  destruct x as [n d]. unfold int_of_float, Qle, Qlt. simpl. split.
  - intros Hn. rewrite Z.mul_1_r in Hn.
    rewrite Z.quot_div_nonneg by lia.
    pose proof (Z.div_pos n (Z.pos d) Hn ltac:(lia)).
    pose proof (Z.mul_div_le n (Z.pos d) ltac:(lia)).
    pose proof (Z.mul_succ_div_gt n (Z.pos d) ltac:(lia)).
    rewrite !Z.mul_1_r. split; [assumption |]. split; nia.
  - apply Z.quot_opp_l. lia.
Qed.

(** ** The sweep driver *)

(** X18: the driver hands back every Result of the sweep, failed and
    rejected ones included, in the order the sweep produced them; the
    selection only decides the last console message, which reports that all
    tests failed exactly when nothing was selected.  An exception of the
    sweep goes through, and then no summary is printed. *)
Theorem batch_bulk_client_tuning_returns_all
    (batches bulks number_of_clients : list Z)
    (schedule_run : M (list Result)) (allowed : Q) (w : World) :
  let started :=
    snd (console_info
           ("There will be " +:+
            pretty (Z.of_nat (length batches) * Z.of_nat (length bulks)
                    * Z.of_nat (length number_of_clients)) +:+
            " tests to run with " +:+
            pretty (Z.of_nat (length bulks)) +:+ " bulk sizes, " +:+
            pretty (Z.of_nat (length batches)) +:+ " batch sizes, " +:+
            pretty (Z.of_nat (length number_of_clients)) +:+
            " client numbers.") w) in
  let res := batch_bulk_client_tuning batches bulks number_of_clients
                                      schedule_run allowed w in
  match schedule_run started with
  | (Returned results, w1) =>
      fst res = Returned results /\
      exists msg,
        trace (snd res) = trace w1 ++ [EvConsoleInfo msg] /\
        (msg = "All tests failed, couldn't find any results!" <->
         select_optimal results allowed = None)
  | (Raised e, w1) => res = (Raised e, w1)
  end.
Proof.
  cbv zeta. unfold batch_bulk_client_tuning, mbind, M_bind.
  unfold console_info, emit. cbn [snd].
  destruct (schedule_run _) as [[results | e] w1]; [| reflexivity].
  unfold select_optimal.
  destruct (find_optimal_result (get_successful_results results allowed))
    as [o|]; cbn.
  - split; [reflexivity |]. eexists. split; [reflexivity |].
    split; discriminate.
  - split; [reflexivity |]. eexists. split; [reflexivity |].
    split; reflexivity.
Qed.

(** ** What is logged *)

(** X19: when the child has exited with ASCII text on stderr, the logger is
    called exactly on a non-zero exit status, once, with the text whose
    bytes are the captured stderr; on exit status zero nothing is logged,
    whatever becomes of the report. *)
Theorem stderr_is_logged_on_failure
    (error_rate_of : option (gmap string (gmap string string)) -> Q)
    (env : Env) (args : Args) (test_id batch bulk client : Z) (w : World)
    (d : Q) effect (rc : Z) (stderr : list Byte.byte) :
  run env = RunExits d effect rc stderr ->
  is_ascii stderr = true ->
  exists text,
    String.list_byte_of_string text = stderr /\
    List.filter (fun ev => match ev with EvLogError _ => true | _ => false end)
      (new_events w
         (snd (run_batch_bulk_client_tests error_rate_of env args test_id
                                           batch bulk client w)))
    = if rc =? 0 then [] else [EvLogError (Some text)].
Proof.
  intros Hrun Hascii.
  exists (String.string_of_list_ascii (map Ascii.ascii_of_byte stderr)).
  split; [apply decode_encode |].
  rewrite (run_exits_table error_rate_of env args test_id batch bulk client
                           w d effect rc stderr Hrun).
  rewrite Hascii.
  destruct (rc =? 0).
  - destruct (effect (<[temp_name env := []]> (files w)) !! temp_name env)
      as [rows|]; [destruct (build_output rows (int_of_float d)) |];
      cbn [snd]; new_events_of; reflexivity.
  - destruct (effect (<[temp_name env := []]> (files w)) !! temp_name env);
      cbn [snd]; new_events_of; reflexivity.
Qed.

Lemma stderr_is_logged_on_failure_witness :
  exists text,
    String.list_byte_of_string text
      = [Byte.x6f; Byte.x6f; Byte.x70; Byte.x73] /\
    List.filter (fun ev => match ev with EvLogError _ => true | _ => false end)
      (new_events initial_world
         (snd (run_batch_bulk_client_tests no_rate (sample_env failing_run)
                 sample_args 1 1 100 4 initial_world)))
    = [EvLogError (Some text)].
Proof.
  apply (stderr_is_logged_on_failure no_rate (sample_env failing_run)
           sample_args 1 1 100 4 initial_world (5 # 2) no_effect 1
           [Byte.x6f; Byte.x6f; Byte.x70; Byte.x73]); reflexivity.
Defined.

(** ** More on the bulk response aggregator *)

Module BulkMoreFacts.
Import Bulk BulkMore BulkFacts.

Lemma scan_ops_from (its : list item) :
  forall a : acc,
    acc_ops (fold_left (step true) its a)
    = fold_left (fun o it => ops_add (op_kind it) (result_label it) o) its
                (acc_ops a).
Proof.
  induction its as [|it its IH]; intros a; simpl; [reflexivity |].
  now rewrite IH.
Qed.

Lemma scan_ops (its : list item) : acc_ops (scan true its) = ops_of its.
Proof. unfold scan, ops_of. now rewrite scan_ops_from. Qed.

Lemma ops_of_snoc (its : list item) (it : item) :
  ops_of (its ++ [it])
  = ops_add (op_kind it) (result_label it) (ops_of its).
Proof. unfold ops_of. now rewrite fold_left_app. Qed.

Lemma sum_labels_add (l : string) (c : list (string * Z)) :
  sum_labels (label_add l c) = sum_labels c + 1.
Proof.
  unfold sum_labels. induction c as [|[k n] c IH]; simpl; [lia |].
  destruct (String.eqb k l); simpl; lia.
Qed.

Lemma sum_items_add (kind l : string) (o : list (string * op_stats)) :
  sum_items (ops_add kind l o) = sum_items o + 1.
Proof.
  unfold sum_items. induction o as [|[k st] o IH]; simpl; [lia |].
  destruct (String.eqb k kind); simpl; lia.
Qed.

Lemma ops_add_consistent (kind l : string) (o : list (string * op_stats)) :
  Forall (fun p => sum_labels (by_label (snd p)) = item_count (snd p)) o ->
  Forall (fun p => sum_labels (by_label (snd p)) = item_count (snd p))
         (ops_add kind l o).
Proof.
  induction 1 as [|[k st] o Hst Ho IH]; simpl.
  - repeat constructor.
  - destruct (String.eqb k kind).
    + constructor; [| exact Ho]. simpl in *. rewrite sum_labels_add. lia.
    + constructor; [exact Hst | exact IH].
Qed.

Lemma ops_add_kinds (kind l : string) (o : list (string * op_stats))
    (k : string) :
  k ∈ map fst (ops_add kind l o) <-> k = kind \/ k ∈ map fst o.
Proof.
  induction o as [|[k' st] o IH]; simpl.
  - rewrite list_elem_of_singleton. split; [auto |].
    intros [H | H]; [exact H |]. now apply elem_of_nil in H.
  - destruct (String.eqb_spec k' kind) as [-> | Hne]; simpl.
    + rewrite !elem_of_cons. tauto.
    + rewrite !elem_of_cons, IH. tauto.
Qed.

(** X20 (the aggregator as modelled after section 4.1 of the
    specification, its source being absent): with the detailed breakdown
    enabled and the error flag set, the operation breakdown has an entry for
    exactly the operation kinds that occur among the items; within each
    entry the counts per outcome label add up to the entry's item count, and
    the item counts of all entries add up to the number of items. *)
Theorem ops_breakdown_sums (resp : response) (req : BulkRequest)
    (its : list item) :
  detailed_results req = true ->
  errors resp = true ->
  items resp = Some its ->
  exists out o,
    aggregate resp req = Returned out /\
    ops out = Some o /\
    (forall k, k ∈ map fst o <-> k ∈ map op_kind its) /\
    Forall (fun p => sum_labels (by_label (snd p)) = item_count (snd p)) o /\
    sum_items o = Z.of_nat (length its).
Proof.
  intros Hd He Hi. unfold aggregate. rewrite He, Hi, Hd. simpl.
  eexists _, _. split; [reflexivity |]. simpl. split; [reflexivity |].
  rewrite scan_ops. clear.
  induction its as [|it its (Hk & Hc & Hs)] using rev_ind.
  - split; [reflexivity |]. split; [apply Forall_nil_2 | reflexivity].
  - rewrite ops_of_snoc. split; [| split].
    + intros k. rewrite ops_add_kinds, Hk, map_app, elem_of_app. simpl.
      rewrite list_elem_of_singleton. tauto.
    + now apply ops_add_consistent.
    + rewrite sum_items_add, Hs, length_app. simpl. lia.
Qed.

Lemma ops_breakdown_sums_witness :
  exists out o,
    aggregate (mkResponse true (Some items_mixed_detailed))
              request_mixed_detailed = Returned out /\
    ops out = Some o /\
    (forall k, k ∈ map fst o <-> k ∈ map op_kind items_mixed_detailed) /\
    Forall (fun p => sum_labels (by_label (snd p)) = item_count (snd p)) o /\
    sum_items o = Z.of_nat (length items_mixed_detailed).
Proof.
  apply (ops_breakdown_sums (mkResponse true (Some items_mixed_detailed))
           request_mixed_detailed items_mixed_detailed); reflexivity.
Defined.

(** X21 (the aggregator as modelled after section 4.1 of the
    specification): the detailed-results flag only adds the two breakdowns.
    Weight, unit, success, error count and index are the same with the flag
    on and off, and the aggregator fails with the flag on exactly when it
    fails with it off. *)
Theorem detailed_flag_keeps_summary (resp : response) (req : BulkRequest)
    (b : bool) :
  match aggregate resp req, aggregate resp (with_detailed b req) with
  | Returned out, Returned out' => summary out = summary out'
  | Raised e, Raised e' => e = e'
  | _, _ => False
  end.
Proof.
  unfold aggregate, with_detailed, summary. simpl.
  destruct (errors resp); simpl; [| reflexivity].
  destruct (items resp) as [its|]; [| reflexivity]. simpl.
  rewrite !scan_errors. reflexivity.
Qed.

(** What [test_mixed_bulk_with_simple_stats] expects. *)
Example mixed_bulk_with_simple_stats :
  aggregate (mkResponse true (Some items_mixed_simple)) request_mixed_simple
  = Returned (mkBulkOutcome 4 "docs" false 2 (Some "test") None None).
Proof. reflexivity. Qed.

End BulkMoreFacts.
